(** * Server actions of the invoice dashboard: a shallow embedding

    The repository holds two revisions of one module of server actions:
    [src/app/lib/actions.ts] (the earlier one) and [src/unnamed/part_000]
    (the later one, with field messages, [safeParse], [try]/[catch] and the
    [authenticate] action).  Both are embedded here, each in a module of its
    own, over a common model of what they call:

    - JavaScript numbers, as IEEE-754 binary64 values ([spec_float] of the
      Standard Library with precision 53 and maximal exponent 1024);
    - [Number(v)], the coercion behind [z.coerce.number()];
    - the three field schemas of zod that [FormSchema] is built from;
    - the collaborators ([sql], [revalidatePath], [redirect], [signIn],
      [console.log]) as operations of a small exception-and-state monad
      that records every call in order. *)

From Stdlib Require Import ZArith String Ascii List Lia SpecFloat.
From stdpp Require Import base strings gmap list.

Local Open Scope Z_scope.

(** ** JavaScript numbers *)

Module JsNumber.

Definition prec : Z := 53.
Definition emax : Z := 1024.

Definition number : Type := spec_float.

Definition NaN : number := S754_nan.
Definition Infinity (negative : bool) : number := S754_infinity negative.
Definition zero (negative : bool) : number := S754_zero negative.

(** The number nearest to an integer (ties to even). *)
Definition of_Z (z : Z) : number := binary_normalize prec emax z 0 false.

(** [x * y] *)
Definition mul (x y : number) : number := SFmul prec emax x y.

(** [x <= y] and [x > y]: both are false when an operand is NaN. *)
Definition le (x y : number) : bool := SFleb x y.
Definition gt (x y : number) : bool := SFltb y x.

(** [Number.isNaN(x)] *)
Definition isNaN (x : number) : bool :=
  match x with S754_nan => true | _ => false end.

(** [Number.isInteger(x)]: finite, and no bit below the unit. *)
Definition isInteger (x : number) : bool :=
  match x with
  | S754_zero _ => true
  | S754_finite _ m e =>
      if 0 <=? e then true else Z.pos m mod 2 ^ (- e) =? 0
  | _ => false
  end.

(** The integer a number stands for, when it is one. *)
Definition integer_value (x : number) : option Z :=
  match x with
  | S754_zero _ => Some 0
  | S754_finite s m e =>
      if isInteger x
      then Some ((if s then -1 else 1) *
                 (if 0 <=? e then Z.pos m * 2 ^ e else Z.pos m / 2 ^ (- e)))
      else None
  | _ => None
  end.

(** The number nearest to [sign * m * 10^x], for a mantissa [m] read from
    decimal digits: an exact integer is rounded once; a quotient by a
    power of ten is rounded once from its quotient and remainder. *)
Definition of_decimal (negative : bool) (m : Z) (x : Z) : number :=
  match m with
  | Z.pos p =>
      match x with
      | Z.neg _ =>
          let '(q, e, l) :=
            SFdiv_core_binary prec emax (Z.pos p) 0 (10 ^ (- x)) 0 in
          binary_round_aux prec emax negative q e l
      | _ => binary_round prec emax negative (Z.to_pos (Z.pos p * 10 ^ x)) 0
      end
  | _ => zero negative
  end.

(** *** [StringToNumber] (ECMA-262, 7.1.4.1.1)

    Strings are sequences of bytes here; the white space that the
    standard strips is recognised in its UTF-8 spelling. *)

Definition code (c : ascii) : Z := Z.of_N (N_of_ascii c).

(** Length in bytes of the white space or line terminator that opens
    [s], or 0: TAB, LF, VT, FF, CR, SP; U+00A0; U+1680; U+2000..U+200A,
    U+2028, U+2029, U+202F; U+205F; U+3000; U+FEFF. *)
Definition white_space_len (s : string) : nat :=
  match s with
  | String a r =>
      let a := code a in
      if (9 <=? a) && (a <=? 13) || (a =? 32) then 1%nat
      else match r with
      | String b r' =>
          let b := code b in
          if (a =? 194) && (b =? 160) then 2%nat
          else match r' with
          | String c _ =>
              let c := code c in
              if (a =? 225) && (b =? 154) && (c =? 128) then 3%nat
              else if (a =? 226) && (b =? 128) &&
                      ((128 <=? c) && (c <=? 138) || (c =? 168) ||
                       (c =? 169) || (c =? 175)) then 3%nat
              else if (a =? 226) && (b =? 129) && (c =? 159) then 3%nat
              else if (a =? 227) && (b =? 128) && (c =? 128) then 3%nat
              else if (a =? 239) && (b =? 187) && (c =? 191) then 3%nat
              else 0%nat
          | EmptyString => 0%nat
          end
      | EmptyString => 0%nat
      end
  | EmptyString => 0%nat
  end.

Fixpoint drop_bytes (n : nat) (s : string) : string :=
  match n, s with
  | S n', String _ r => drop_bytes n' r
  | _, _ => s
  end.

(** [fuel] bounds the number of white-space characters dropped; the
    length of the string is always enough. *)
Fixpoint trim_start_fuel (fuel : nat) (s : string) : string :=
  match fuel with
  | O => s
  | S fuel' =>
      match white_space_len s with
      | O => s
      | n => trim_start_fuel fuel' (drop_bytes n s)
      end
  end.

Definition trim_start (s : string) : string :=
  trim_start_fuel (String.length s) s.

Definition all_white_space (s : string) : bool :=
  match trim_start s with EmptyString => true | _ => false end.

Fixpoint trim_end (s : string) : string :=
  match s with
  | EmptyString => EmptyString
  | String c r => if all_white_space s then EmptyString else String c (trim_end r)
  end.

Definition trim (s : string) : string := trim_end (trim_start s).

Definition hex_digit (c : ascii) : option Z :=
  let n := code c in
  if (48 <=? n) && (n <=? 57) then Some (n - 48)
  else if (97 <=? n) && (n <=? 102) then Some (n - 87)
  else if (65 <=? n) && (n <=? 70) then Some (n - 55)
  else None.

Definition digit_below (base : Z) (c : ascii) : option Z :=
  match hex_digit c with
  | Some d => if d <? base then Some d else None
  | None => None
  end.

(** Reads the longest run of digits of [base] that opens [s], on top of
    the value [acc] read so far: the value, the number of digits read
    and the rest of the string. *)
Fixpoint read_digits (base : Z) (s : string) (acc : Z) (count : Z)
  : Z * Z * string :=
  match s with
  | String c r =>
      match digit_below base c with
      | Some d => read_digits base r (acc * base + d) (count + 1)
      | None => (acc, count, s)
      end
  | EmptyString => (acc, count, s)
  end.

(** [ExponentPart], or nothing: the exponent, when what is left of the
    literal is well formed. *)
Definition read_exponent (s : string) : option Z :=
  match s with
  | EmptyString => Some 0
  | String c r =>
      if (code c =? 101) || (code c =? 69) then
        let '(negative, r') :=
          match r with
          | String sg r'' =>
              if code sg =? 43 then (false, r'')
              else if code sg =? 45 then (true, r'')
              else (false, r)
          | EmptyString => (false, r)
          end in
        match read_digits 10 r' 0 0 with
        | (v, n, EmptyString) =>
            if 0 <? n then Some (if negative then - v else v) else None
        | _ => None
        end
      else None
  end.

(** [StrUnsignedDecimalLiteral] *)
Definition unsigned_decimal (negative : bool) (s : string) : number :=
  if String.eqb s "Infinity" then Infinity negative
  else
    let '(iv, ic, r1) := read_digits 10 s 0 0 in
    let '(mv, fc, r2) :=
      match r1 with
      | String dot r =>
          if code dot =? 46 then
            let '(v, n, r') := read_digits 10 r iv 0 in (v, n, r')
          else (iv, 0, r1)
      | EmptyString => (iv, 0, r1)
      end in
    if 0 <? ic + fc then
      match read_exponent r2 with
      | Some x => of_decimal negative mv (x - fc)
      | None => NaN
      end
    else NaN.

(** [NonDecimalIntegerLiteral]: [0x], [0o] or [0b] and digits. *)
Definition non_decimal (s : string) : option number :=
  match s with
  | String z (String k r) =>
      if code z =? 48 then
        let base :=
          if (code k =? 120) || (code k =? 88) then Some 16
          else if (code k =? 111) || (code k =? 79) then Some 8
          else if (code k =? 98) || (code k =? 66) then Some 2
          else None in
        match base with
        | Some b =>
            match read_digits b r 0 0 with
            | (v, n, EmptyString) =>
                if 0 <? n then Some (of_decimal false v 0) else Some NaN
            | _ => Some NaN
            end
        | None => None
        end
      else None
  | _ => None
  end.

Definition StringToNumber (str : string) : number :=
  let s := trim str in
  match s with
  | EmptyString => zero false
  | String c r =>
      match non_decimal s with
      | Some x => x
      | None =>
          if code c =? 43 then unsigned_decimal false r
          else if code c =? 45 then unsigned_decimal true r
          else unsigned_decimal false s
      end
  end.

End JsNumber.

(** ** Form data *)

(** A [FormDataEntryValue] is a string or a [File]. *)
Inductive FormDataEntryValue : Type :=
| EntryString (s : string)
| EntryFile (name : string).

(** A [FormData] is an ordered list of named entries. *)
Definition FormData : Type := list (string * FormDataEntryValue).

(** [formData.get(name)]: the first entry of that name, or [null]. *)
Fixpoint FormData_get (name : string) (formData : FormData)
  : option FormDataEntryValue :=
  match formData with
  | [] => None
  | (k, v) :: rest =>
      if String.eqb k name then Some v else FormData_get name rest
  end.

(** [Number(v)] for what [formData.get] returns: [null] is [+0], a string
    goes through [StringToNumber], and a [File] is an object whose
    primitive is the string "[object File]", which is no numeric literal. *)
Definition Number (v : option FormDataEntryValue) : JsNumber.number :=
  match v with
  | None => JsNumber.zero false
  | Some (EntryString s) => JsNumber.StringToNumber s
  | Some (EntryFile _) => JsNumber.NaN
  end.

(** ** The zod schemas the actions use *)

Module Zod.

Inductive ZodIssueCode : Type :=
| invalid_type
| too_small
| invalid_enum_value.

Record ZodIssue : Type := mkIssue {
  code : ZodIssueCode;
  path : list string;
  message : string
}.

(** [safeParse] returns [{success: true, data}] or
    [{success: false, error}]. *)
Inductive SafeParseReturnType (A : Type) : Type :=
| SafeParseSuccess (data : A)
| SafeParseError (error : list ZodIssue).
Arguments SafeParseSuccess {A} data.
Arguments SafeParseError {A} error.

(** The name zod gives to the type of a value it did not expect. *)
Definition received_type (v : option FormDataEntryValue) : string :=
  match v with
  | None => "null"
  | Some (EntryString _) => "string"
  | Some (EntryFile _) => "object"
  end.

(** zod's default message for [invalid_type]. *)
Definition default_invalid_type (expected received : string) : string :=
  "Expected " +:+ expected +:+ ", received " +:+ received.

(** [util.joinValues]: the options of an enum, quoted and separated. *)
Fixpoint joinValues (values : list string) : string :=
  match values with
  | [] => ""
  | [v] => "'" +:+ v +:+ "'"
  | v :: rest => "'" +:+ v +:+ "' | " +:+ joinValues rest
  end.

Definition invalid_type_message (invalid_type_error : option string)
    (expected received : string) : string :=
  match invalid_type_error with
  | Some m => m
  | None => default_invalid_type expected received
  end.

(** [z.string({invalid_type_error})] at the key [key]. *)
Definition string_ (invalid_type_error : option string) (key : string)
    (v : option FormDataEntryValue) : list ZodIssue + string :=
  match v with
  | Some (EntryString s) => inr s
  | _ => inl [mkIssue invalid_type [key]
                (invalid_type_message invalid_type_error
                   "string" (received_type v))]
  end.

(** [z.coerce.number()], with the check [.gt(bound, {message})] when
    [gt_check] is given: the input is coerced by [Number]; NaN is not a
    number; the check fails when [data <= bound]. *)
Definition coerce_number (gt_check : option (JsNumber.number * string))
    (key : string) (v : option FormDataEntryValue)
  : list ZodIssue + JsNumber.number :=
  let data := Number v in
  if JsNumber.isNaN data then
    inl [mkIssue invalid_type [key] (default_invalid_type "number" "nan")]
  else
    match gt_check with
    | Some (bound, msg) =>
        if JsNumber.le data bound then inl [mkIssue too_small [key] msg]
        else inr data
    | None => inr data
    end.

(** [z.enum(values, {invalid_type_error})] *)
Definition enum (values : list string) (invalid_type_error : option string)
    (key : string) (v : option FormDataEntryValue) : list ZodIssue + string :=
  match v with
  | Some (EntryString s) =>
      if existsb (String.eqb s) values then inr s
      else inl [mkIssue invalid_enum_value [key]
                  ("Invalid enum value. Expected " +:+ joinValues values +:+
                   ", received '" +:+ s +:+ "'")]
  | _ => inl [mkIssue invalid_type [key]
                (invalid_type_message invalid_type_error
                   (joinValues values) (received_type v))]
  end.

Definition issues_of {A : Type} (r : list ZodIssue + A) : list ZodIssue :=
  match r with inl l => l | inr _ => [] end.

(** [error.flatten().fieldErrors]: the messages of the issues, grouped
    by the first element of their path, in the order of the issues. *)
Definition fieldErrors (error : list ZodIssue) : gmap string (list string) :=
  fold_left
    (fun acc issue =>
       match path issue with
       | k :: _ => <[ k := default [] (acc !! k) ++ [message issue] ]> acc
       | [] => acc
       end)
    error ∅.

End Zod.

(** ** The collaborators: database, cache, navigation, credentials *)

(** A row of the table [invoices], with the columns the statements name. *)
Record Row : Type := mkRow {
  id : string;
  customer_id : string;
  amount : JsNumber.number;
  status : string;
  date : string
}.

(** The three statements the actions send, with their bound parameters
    in the order of the source text. *)
Inductive Stmt : Type :=
| INSERT_INTO_invoices (customer_id : string) (amount : JsNumber.number)
    (status : string) (date : string)
| UPDATE_invoices (customer_id : string) (amount : JsNumber.number)
    (status : string) (id : string)
| DELETE_FROM_invoices (id : string).

(** What can be thrown. [AuthError] stands for every instance of that
    class, told apart by the field [type]; [ExternalError] for any other
    value a collaborator throws. *)
Inductive Exn : Type :=
| ZodError (issues : list Zod.ZodIssue)
| NEXT_REDIRECT (url : string)
| Error (message : string)
| AuthError (type : string)
| ExternalError (tag : string).

Inductive LogArg : Type :=
| LogString (s : string)
| LogFormData (formData : FormData).

(** The calls an action makes, as an observer outside would see them. *)
Inductive Event : Type :=
| EvLog (args : list LogArg)
| EvSql (q : Stmt)
| EvRevalidatePath (path : string)
| EvRedirect (url : string)
| EvSignIn (provider : string) (formData : FormData).

(** What an action cannot decide: the clock, whether the database or the
    credential provider raises, and the identifier the table gives to a
    new row. *)
Record Env : Type := mkEnv {
  now_ISOString : string;
  sql_raises : Stmt -> list Row -> option Exn;
  new_row_id : list Row -> string;
  signIn_raises : string -> FormData -> option Exn
}.

Record World : Type := mkWorld {
  invoices : list Row;
  events : list Event
}.

Inductive Outcome (A : Type) : Type :=
| Returned (value : A)
| Thrown (error : Exn).
Arguments Returned {A} value.
Arguments Thrown {A} error.

(** An action runs in an environment, from a world, to an outcome and a
    world. *)
Definition Action (A : Type) : Type := Env -> World -> Outcome A * World.

#[global] Instance Action_ret : MRet Action :=
  fun A (a : A) _ w => (Returned a, w).

#[global] Instance Action_bind : MBind Action :=
  fun A B (k : A -> Action B) (m : Action A) env w =>
    match m env w with
    | (Returned a, w') => k a env w'
    | (Thrown e, w') => (Thrown e, w')
    end.

(** [throw e] *)
Definition throw {A : Type} (e : Exn) : Action A :=
  fun _ w => (Thrown e, w).

(** [try { body } catch (error) { handler }] *)
Definition try_catch {A : Type} (body : Action A) (handler : Exn -> Action A)
  : Action A :=
  fun env w =>
    match body env w with
    | (Thrown e, w') => handler e env w'
    | r => r
    end.

Definition emit (ev : Event) : Action unit :=
  fun _ w => (Returned tt, mkWorld (invoices w) (events w ++ [ev])).

(** What a statement that does not raise does to the table. *)
Definition execute (env : Env) (q : Stmt) (rows : list Row) : list Row :=
  match q with
  | INSERT_INTO_invoices c a s d =>
      rows ++ [mkRow (new_row_id env rows) c a s d]
  | UPDATE_invoices c a s i =>
      List.map
        (fun r => if String.eqb (id r) i
                  then mkRow (id r) c a s (date r) else r)
        rows
  | DELETE_FROM_invoices i =>
      List.filter (fun r => negb (String.eqb (id r) i)) rows
  end.

(** [await sql`...`]: the statement is sent; it raises and leaves the
    table as it was, or it takes effect. *)
Definition sql (q : Stmt) : Action unit :=
  fun env w =>
    let w' := mkWorld (invoices w) (events w ++ [EvSql q]) in
    match sql_raises env q (invoices w) with
    | Some e => (Thrown e, w')
    | None => (Returned tt, mkWorld (execute env q (invoices w)) (events w'))
    end.

Definition console_log (args : list LogArg) : Action unit := emit (EvLog args).

Definition revalidatePath (path : string) : Action unit :=
  emit (EvRevalidatePath path).

(** [redirect(url)] never returns: it throws the framework's signal. *)
Definition redirect {A : Type} (url : string) : Action A :=
  fun _ w =>
    (Thrown (NEXT_REDIRECT url),
     mkWorld (invoices w) (events w ++ [EvRedirect url])).

(** [await signIn(provider, formData)] *)
Definition signIn (provider : string) (formData : FormData) : Action unit :=
  fun env w =>
    let w' := mkWorld (invoices w) (events w ++ [EvSignIn provider formData]) in
    match signIn_raises env provider formData with
    | Some e => (Thrown e, w')
    | None => (Returned tt, w')
    end.

(** [s.split(sep)[0]]: what comes before the first [sep], or all of [s]. *)
Fixpoint split_head (sep : ascii) (s : string) : string :=
  match s with
  | EmptyString => EmptyString
  | String c r => if Ascii.eqb c sep then EmptyString else String c (split_head sep r)
  end.

(** [new Date().toISOString().split('T')[0]] *)
Definition today : Action string :=
  fun env w => (Returned (split_head "T" (now_ISOString env)), w).

(** The object [{errors?, message?}] an action hands back to the form. *)
Record State : Type := mkState {
  errors : option (gmap string (list string));
  message : option string
}.

(** What the three fields of the form parse to. *)
Record InvoiceFields : Type := mkFields {
  customerId : string;
  amount_ : JsNumber.number;
  status_ : string
}.

(** The object literal both actions hand to the schema. *)
Record RawFields : Type := mkRaw {
  raw_customerId : option FormDataEntryValue;
  raw_amount : option FormDataEntryValue;
  raw_status : option FormDataEntryValue
}.

Definition raw_of (formData : FormData) : RawFields :=
  mkRaw (FormData_get "customerId" formData)
        (FormData_get "amount" formData)
        (FormData_get "status" formData).

(** An object schema over the three fields: every field is parsed, and
    the issues of all of them are reported in the order of the keys. *)
Definition object3
    (f_customerId : option FormDataEntryValue -> list Zod.ZodIssue + string)
    (f_amount : option FormDataEntryValue -> list Zod.ZodIssue + JsNumber.number)
    (f_status : option FormDataEntryValue -> list Zod.ZodIssue + string)
    (input : RawFields) : Zod.SafeParseReturnType InvoiceFields :=
  match f_customerId (raw_customerId input),
        f_amount (raw_amount input),
        f_status (raw_status input) with
  | inr c, inr a, inr s => Zod.SafeParseSuccess (mkFields c a s)
  | rc, ra, rs =>
      Zod.SafeParseError (Zod.issues_of rc ++ Zod.issues_of ra ++ Zod.issues_of rs)
  end.

(** [schema.parse(input)]: the data, or a thrown [ZodError]. *)
Definition parse_or_throw {A : Type} (r : Zod.SafeParseReturnType A) : Action A :=
  match r with
  | Zod.SafeParseSuccess data => mret data
  | Zod.SafeParseError error => throw (ZodError error)
  end.

(** A [FormSchema]: one field schema per key. *)
Record ObjectSchema : Type := mkSchema {
  shape_id : string -> option FormDataEntryValue -> list Zod.ZodIssue + string;
  shape_customerId :
    string -> option FormDataEntryValue -> list Zod.ZodIssue + string;
  shape_amount :
    string -> option FormDataEntryValue -> list Zod.ZodIssue + JsNumber.number;
  shape_status :
    string -> option FormDataEntryValue -> list Zod.ZodIssue + string;
  shape_date : string -> option FormDataEntryValue -> list Zod.ZodIssue + string
}.

(** [schema.omit({ id: true, date: true })], as [safeParse]. *)
Definition omit_id_date (schema : ObjectSchema)
  : RawFields -> Zod.SafeParseReturnType InvoiceFields :=
  object3 (shape_customerId schema "customerId")
          (shape_amount schema "amount")
          (shape_status schema "status").

(** ** [src/unnamed/part_000] *)

Module Part000.

Definition FormSchema : ObjectSchema := {|
  shape_id := Zod.string_ None;
  shape_customerId := Zod.string_ (Some "Please select a customer.");
  shape_amount :=
    Zod.coerce_number
      (Some (JsNumber.zero false, "Please enter an amount greater than $0."));
  shape_status :=
    Zod.enum ["pending"; "paid"] (Some "Please select an invoice status.");
  shape_date := Zod.string_ None
|}.

Definition CreateInvoice := omit_id_date FormSchema.

Definition createInvoice (prevState : State) (formData : FormData)
  : Action State :=
  console_log [LogString "I'm in the server! 😀"];;
  let validatedFields := CreateInvoice (raw_of formData) in
  match validatedFields with
  | Zod.SafeParseError error =>
      mret {| errors := Some (Zod.fieldErrors error);
              message := Some "Missing Fields. Failed to Create Invoice." |}
  | Zod.SafeParseSuccess data =>
      let amountInCents := JsNumber.mul (amount_ data) (JsNumber.of_Z 100) in
      date ← today;
      caught ← try_catch
        (sql (INSERT_INTO_invoices (customerId data) amountInCents
                (status_ data) date);;
         mret None)
        (fun error =>
           mret (Some {| errors := None;
                         message :=
                           Some "Database Error: Failed to Create Invoice." |}));
      match caught with
      | Some result => mret result
      | None =>
          revalidatePath "/dashboard/invoices";;
          redirect "/dashboard/invoices"
      end
  end.

Definition UpdateInvoice := omit_id_date FormSchema.

Definition updateInvoice (id : string) (formData : FormData) : Action State :=
  console_log [LogString "id :"; LogString id];;
  console_log [LogString "formData :"; LogFormData formData];;
  data ← parse_or_throw (UpdateInvoice (raw_of formData));
  let amountInCents := JsNumber.mul (amount_ data) (JsNumber.of_Z 100) in
  caught ← try_catch
    (sql (UPDATE_invoices (customerId data) amountInCents (status_ data) id);;
     mret None)
    (fun error =>
       mret (Some {| errors := None;
                     message :=
                       Some "Database Error: Failed to Update Invoice." |}));
  match caught with
  | Some result => mret result
  | None =>
      revalidatePath "/dashboard/invoices";;
      redirect "/dashboard/invoices"
  end.

(** Lines 154 to 160: the [try]/[catch] that follows the [throw]. *)
Definition deleteInvoice_try (id : string) : Action State :=
  try_catch
    (sql (DELETE_FROM_invoices id);;
     revalidatePath "/dashboard/invoices";;
     mret {| errors := None; message := Some "Deleted Invoice." |})
    (fun error =>
       mret {| errors := None;
               message := Some "Database Error: Failed to Delete Invoice." |}).

Definition deleteInvoice (id : string) : Action State :=
  throw (A := unit) (Error "Failed to Delete Invoice");;
  deleteInvoice_try id.

(** [undefined] is [None]. *)
Definition authenticate (prevState : option string) (formData : FormData)
  : Action (option string) :=
  try_catch
    (signIn "credentials" formData;;
     mret None)
    (fun error =>
       match error with
       | AuthError type =>
           if String.eqb type "CredentialsSignin"
           then mret (Some "Invalid credentials.")
           else mret (Some "Something went wrong.")
       | _ => throw error
       end).

End Part000.

(** ** [src/app/lib/actions.ts] *)

Module ActionsTs.

Definition FormSchema : ObjectSchema := {|
  shape_id := Zod.string_ None;
  shape_customerId := Zod.string_ None;
  shape_amount := Zod.coerce_number None;
  shape_status := Zod.enum ["pending"; "paid"] None;
  shape_date := Zod.string_ None
|}.

Definition CreateInvoice := omit_id_date FormSchema.

Definition createInvoice (formData : FormData) : Action unit :=
  console_log [LogString "I'm in the server!"];;
  data ← parse_or_throw (CreateInvoice (raw_of formData));
  let amountInCents := JsNumber.mul (amount_ data) (JsNumber.of_Z 100) in
  date ← today;
  sql (INSERT_INTO_invoices (customerId data) amountInCents
         (status_ data) date);;
  revalidatePath "/dashboard/invoices";;
  redirect "/dashboard/invoices".

Definition UpdateInvoice := omit_id_date FormSchema.

Definition updateInvoice (id : string) (formData : FormData) : Action unit :=
  console_log [LogString "id :"; LogString id];;
  console_log [LogString "formData :"; LogFormData formData];;
  data ← parse_or_throw (UpdateInvoice (raw_of formData));
  let amountInCents := JsNumber.mul (amount_ data) (JsNumber.of_Z 100) in
  sql (UPDATE_invoices (customerId data) amountInCents (status_ data) id);;
  revalidatePath "/dashboard/invoices";;
  redirect "/dashboard/invoices".

Definition deleteInvoice (id : string) : Action unit :=
  sql (DELETE_FROM_invoices id);;
  revalidatePath "/dashboard/invoices".

End ActionsTs.

(** ** Notions the properties are stated with *)

(** The messages of the issues whose path starts with [k]. *)
Definition messages_at (k : string) (error : list Zod.ZodIssue) : list string :=
  List.map Zod.message
    (List.filter
       (fun i => match Zod.path i with h :: _ => String.eqb h k | [] => false end)
       error).

(** The amounts bound in the [INSERT] and [UPDATE] statements of a run. *)
Definition persisted_amounts (evs : list Event) : list JsNumber.number :=
  List.flat_map
    (fun ev =>
       match ev with
       | EvSql (INSERT_INTO_invoices _ a _ _) => [a]
       | EvSql (UPDATE_invoices _ a _ _) => [a]
       | _ => []
       end)
    evs.

(** Two rows with the same identifier and the same date; and the same
    row altogether, when its identifier is not [target]. *)
Definition keeps_id_and_date (target : string) (before after : Row) : Prop :=
  id after = id before /\ date after = date before /\
  (id before <> target -> after = before).

(** The rows whose identifier is not [target]. *)
Definition rows_other_than (target : string) (rows : list Row) : list Row :=
  List.filter (fun r => negb (String.eqb (id r) target)) rows.

(** What a caller sees of an action that hands back a [State], and of one
    that hands back nothing ([undefined], here [None]). *)
Definition observe_State (r : Outcome State * World)
  : Outcome (option State) * World :=
  (match fst r with
   | Returned s => Returned (Some s)
   | Thrown e => Thrown e
   end, snd r).

Definition observe_void (r : Outcome unit * World)
  : Outcome (option State) * World :=
  (match fst r with
   | Returned _ => Returned None
   | Thrown e => Thrown e
   end, snd r).

(** An integer of at most [prec] bits, as a number: its bits, shifted to
    the top of the mantissa. *)
Definition normalized (a : Z) (m : positive) (e : Z) : Prop :=
  Z.pos (digits2_pos m) = JsNumber.prec /\ (- JsNumber.prec < e <= 0) /\
  Z.pos m = a * 2 ^ (- e).

(** Whether the character [c] occurs in [s]. *)
Fixpoint occurs (c : ascii) (s : string) : bool :=
  match s with
  | EmptyString => false
  | String c' r => if Ascii.eqb c' c then true else occurs c r
  end.

(** A number that is neither NaN nor below zero: its sign bit is clear. *)
Definition not_negative (x : JsNumber.number) : bool :=
  match x with
  | S754_zero false | S754_infinity false | S754_finite false _ _ => true
  | _ => false
  end.

(** The messages of the issues of one field, as [fieldErrors] shows them:
    nothing when the field has no issue. *)
Definition field_messages {A : Type} (r : list Zod.ZodIssue + A)
  : option (list string) :=
  match List.map Zod.message (Zod.issues_of r) with
  | [] => None
  | ms => Some ms
  end.

(** *** Sample environments, worlds and forms *)

(** Nothing raises. *)
Definition quiet_env : Env := {|
  now_ISOString := "2024-03-05T10:11:12.000Z";
  sql_raises := fun _ _ => None;
  new_row_id := fun _ => "3958dc9e-712f-4377-85e9-fec4b6a6442a";
  signIn_raises := fun _ _ => None
|}.

(** The database raises on every statement. *)
Definition broken_db_env : Env := {|
  now_ISOString := "2024-03-05T10:11:12.000Z";
  sql_raises := fun _ _ => Some (ExternalError "connection refused");
  new_row_id := fun _ => "3958dc9e-712f-4377-85e9-fec4b6a6442a";
  signIn_raises := fun _ _ => None
|}.

(** The credential provider raises an [AuthError] of the given type. *)
Definition auth_error_env (type : string) : Env := {|
  now_ISOString := "2024-03-05T10:11:12.000Z";
  sql_raises := fun _ _ => None;
  new_row_id := fun _ => "3958dc9e-712f-4377-85e9-fec4b6a6442a";
  signIn_raises := fun _ _ => Some (AuthError type)
|}.

Definition empty_world : World := {| invoices := []; events := [] |}.

Definition two_rows : World := {|
  invoices :=
    [mkRow "i1" "C1" (JsNumber.of_Z 1050) "pending" "2024-01-02";
     mkRow "i2" "C2" (JsNumber.of_Z 20000) "paid" "2024-02-03"];
  events := []
|}.

Definition no_state : State := {| errors := None; message := None |}.

Definition invoice_form (customer amount status : string) : FormData :=
  [("customerId", EntryString customer);
   ("amount", EntryString amount);
   ("status", EntryString status)].

(** * Properties *)

(** ** Exact products of small integers *)

Section ExactIntegers.

Import JsNumber.

Lemma digits2_pos_size p : digits2_pos p = Pos.size p.
Proof. induction p; cbn; congruence. Qed.

Lemma digits2_upper p : Z.pos p < 2 ^ Z.pos (digits2_pos p).
Proof.
  rewrite digits2_pos_size. pose proof (Pos.size_gt p) as H.
  apply Pos2Z.pos_lt_pos in H. rewrite Pos2Z.inj_pow in H. exact H.
Qed.

Lemma digits2_lower p : 2 ^ Z.pos (digits2_pos p) <= 2 * Z.pos p.
Proof.
  rewrite digits2_pos_size. pose proof (Pos.size_le p) as H.
  apply Pos2Z.pos_le_pos in H. rewrite Pos2Z.inj_pow in H. exact H.
Qed.

(** The number of binary digits is fixed by the two powers of two around
    the number. *)
Lemma digits2_unique p d :
  2 ^ d <= 2 * Z.pos p -> Z.pos p < 2 ^ d -> Z.pos (digits2_pos p) = d.
Proof.
  intros Hlo Hhi.
  pose proof (digits2_upper p) as Hu. pose proof (digits2_lower p) as Hl.
  set (d' := Z.pos (digits2_pos p)) in *.
  assert (0 < d') by (subst d'; lia).
  assert (0 <= d).
  { destruct (Z.lt_ge_cases d 0) as [Hneg|]; [|assumption].
    rewrite (Z.pow_neg_r 2 d Hneg) in Hhi. lia. }
  destruct (Z.lt_trichotomy d' d) as [Hlt|[Heq|Hgt]]; [|assumption|].
  - assert (2 ^ (d' + 1) <= 2 ^ d) by (apply Z.pow_le_mono_r; lia).
    rewrite Z.pow_add_r in * by lia. lia.
  - assert (2 ^ (d + 1) <= 2 ^ d') by (apply Z.pow_le_mono_r; lia).
    rewrite Z.pow_add_r in * by lia. lia.
Qed.

Lemma digits2_shift p k q :
  0 <= k -> Z.pos q = Z.pos p * 2 ^ k ->
  Z.pos (digits2_pos q) = Z.pos (digits2_pos p) + k.
Proof.
  intros Hk Hq. apply digits2_unique; rewrite Hq, Z.pow_add_r by lia.
  - pose proof (digits2_lower p). pose proof (Z.pow_pos_nonneg 2 k). nia.
  - pose proof (digits2_upper p). pose proof (Z.pow_pos_nonneg 2 k). nia.
Qed.

Lemma iter_pos_nat {A : Type} (f : A -> A) p x :
  SpecFloat.iter_pos f p x = Nat.iter (Pos.to_nat p) f x.
Proof.
  revert x. induction p as [p IH|p IH|]; intros x; cbn [SpecFloat.iter_pos].
  - rewrite !IH, Pos2Nat.inj_xI.
    replace (S (2 * Pos.to_nat p))%nat
      with (Pos.to_nat p + S (Pos.to_nat p))%nat by lia.
    rewrite Nat.iter_add, Nat.iter_succ_r. reflexivity.
  - rewrite !IH, Pos2Nat.inj_xO.
    replace (2 * Pos.to_nat p)%nat
      with (Pos.to_nat p + Pos.to_nat p)%nat by lia.
    rewrite Nat.iter_add. reflexivity.
  - reflexivity.
Qed.

Lemma shr_1_even z :
  0 < z ->
  shr_1 (Build_shr_record (2 * z) false false) = Build_shr_record z false false.
Proof. intros Hz. destruct z as [|p|p]; try lia. reflexivity. Qed.

(** Shifting out [k] zero bits loses nothing. *)
Lemma iter_shr_1_exact k z :
  0 < z ->
  Nat.iter k shr_1 (Build_shr_record (z * 2 ^ Z.of_nat k) false false) =
  Build_shr_record z false false.
Proof.
  intros Hz. induction k as [|k IH].
  - cbn [Nat.iter Z.of_nat]. rewrite Z.pow_0_r, Z.mul_1_r. reflexivity.
  - rewrite Nat.iter_succ_r.
    replace (z * 2 ^ Z.of_nat (S k)) with (2 * (z * 2 ^ Z.of_nat k)).
    + rewrite shr_1_even; [exact IH|].
      pose proof (Z.pow_pos_nonneg 2 (Z.of_nat k)). nia.
    + rewrite Nat2Z.inj_succ, Z.pow_succ_r by lia. ring.
Qed.

Lemma shr_exact z e k :
  0 < z -> 0 <= k ->
  shr (Build_shr_record (z * 2 ^ k) false false) e k =
  (Build_shr_record z false false, e + k).
Proof.
  intros Hz Hk. destruct k as [|p|p]; try lia; cbn [shr].
  - rewrite Z.pow_0_r, Z.mul_1_r, Z.add_0_r. reflexivity.
  - rewrite iter_pos_nat.
    rewrite <- (positive_nat_Z p) at 1.
    rewrite iter_shr_1_exact by assumption. reflexivity.
Qed.

Lemma fexp_normal e :
  3 - emax - prec <= e - prec -> fexp prec emax e = e - prec.
Proof. intros H. unfold fexp, emin. apply Z.max_l. lia. Qed.

(** A mantissa of [prec] bits followed by [k] zero bits is rounded to
    itself. *)
Lemma binary_round_aux_exact s m0 k E :
  Z.pos (digits2_pos m0) = prec ->
  0 <= k ->
  3 - emax - prec <= E + k <= emax - prec ->
  binary_round_aux prec emax s (Z.pos m0 * 2 ^ k) E loc_Exact =
  S754_finite s m0 (E + k).
Proof.
  intros Hd Hk [Hlo Hhi].
  assert (Hq : exists q, Z.pos q = Z.pos m0 * 2 ^ k).
  { pose proof (Z.pow_pos_nonneg 2 k ltac:(lia) Hk).
    exists (Z.to_pos (Z.pos m0 * 2 ^ k)). rewrite Z2Pos.id; nia. }
  destruct Hq as [q Hq].
  unfold binary_round_aux, shr_fexp.
  rewrite <- Hq. cbn [Zdigits2].
  rewrite (digits2_shift m0 k q Hk Hq), Hd.
  rewrite fexp_normal by lia.
  replace (prec + k + E - prec - E) with k by lia.
  cbn [shr_record_of_loc]. rewrite Hq, shr_exact by lia.
  cbn [shr_m loc_of_shr_record round_nearest_even Zdigits2].
  rewrite Hd, fexp_normal by lia.
  replace (prec + (E + k) - prec - (E + k)) with 0 by lia.
  cbn [shr shr_m shr_record_of_loc].
  destruct (Z.leb_spec (E + k) (emax - prec)); [reflexivity|lia].
Qed.

Lemma pos_iter_xO p x : Z.pos (Pos.iter xO p x) = Z.pos p * 2 ^ Z.pos x.
Proof.
  induction x as [|x IH] using Pos.peano_ind.
  - cbn [Pos.iter]. rewrite Z.pow_1_r. lia.
  - rewrite Pos.iter_succ, Pos2Z.inj_succ, Z.pow_succ_r by lia.
    rewrite Pos2Z.inj_xO, IH. ring.
Qed.

Lemma of_Z_normalized a :
  0 < a < 2 ^ prec ->
  exists m e, of_Z a = S754_finite false m e /\ normalized a m e.
Proof.
  intros [Hpos Hlt]. destruct a as [|p|p]; try lia.
  pose proof (digits2_lower p) as Hl.
  set (d := Z.pos (digits2_pos p)) in *.
  assert (Hd : 0 < d <= prec).
  { split; [subst d; lia|].
    destruct (Z.le_gt_cases d prec) as [|Hgt]; [assumption|].
    assert (2 ^ (prec + 1) <= 2 ^ d) by (apply Z.pow_le_mono_r; lia).
    rewrite Z.pow_add_r in * by (unfold prec; lia). lia. }
  unfold of_Z, binary_normalize, binary_round.
  fold d. rewrite Z.add_0_r, fexp_normal by (unfold prec, emax in *; lia).
  unfold shl_align. rewrite Z.sub_0_r.
  destruct (d - prec) as [|x|x] eqn:Hx; try lia.
  - exists p, 0.
    replace (Z.pos p) with (Z.pos p * 2 ^ 0) at 1 by (rewrite Z.pow_0_r; lia).
    rewrite binary_round_aux_exact by (unfold prec, emax in *; lia).
    split; [reflexivity|].
    repeat split; try (unfold prec; lia).
    cbn. lia.
  - pose proof (pos_iter_xO p x) as Hm.
    assert (Hdm : Z.pos (digits2_pos (Pos.iter xO p x)) = prec).
    { rewrite (digits2_shift p (Z.pos x) _ ltac:(lia) Hm). fold d. lia. }
    exists (Pos.iter xO p x), (Z.neg x).
    replace (Z.pos (Pos.iter xO p x))
      with (Z.pos (Pos.iter xO p x) * 2 ^ 0) at 1 by (rewrite Z.pow_0_r; lia).
    rewrite binary_round_aux_exact by (unfold prec, emax in *; lia).
    rewrite Z.add_0_r. split; [reflexivity|].
    repeat split; try assumption; try lia.
Qed.

Lemma normalized_bounds a m e :
  normalized a m e -> 2 ^ (prec - 1) <= Z.pos m < 2 ^ prec.
Proof.
  intros [Hd _]. pose proof (digits2_lower m). pose proof (digits2_upper m).
  rewrite Hd in *. split; [|assumption].
  replace prec with (prec - 1 + 1) in H at 1 by lia.
  rewrite Z.pow_add_r in H by (unfold prec; lia). lia.
Qed.

(** The product of two positive integers that fits in [prec] bits is
    computed exactly. *)
Lemma mul_of_Z_exact a b :
  0 < a -> 0 < b -> a * b < 2 ^ prec ->
  mul (of_Z a) (of_Z b) = of_Z (a * b).
Proof.
  intros Ha Hb Hab.
  assert (Ha' : 0 < a < 2 ^ prec) by nia.
  assert (Hb' : 0 < b < 2 ^ prec) by nia.
  assert (Hc' : 0 < a * b < 2 ^ prec) by nia.
  destruct (of_Z_normalized a Ha') as (ma & ea & -> & Hna).
  destruct (of_Z_normalized b Hb') as (mb & eb & -> & Hnb).
  destruct (of_Z_normalized (a * b) Hc') as (mc & ec & -> & Hnc).
  pose proof (normalized_bounds _ _ _ Hna) as Ba.
  pose proof (normalized_bounds _ _ _ Hnb) as Bb.
  pose proof (normalized_bounds _ _ _ Hnc) as Bc.
  destruct Hna as (_ & Hea & Hma), Hnb as (_ & Heb & Hmb),
           Hnc as (Hdc & Hec & Hmc).
  unfold mul, SFmul. cbn [xorb].
  set (u := - ec) in *. set (v := - ea + - eb).
  assert (Hprod : Z.pos (ma * mb) = (a * b) * 2 ^ v).
  { rewrite Pos2Z.inj_mul, Hma, Hmb. unfold v.
    rewrite Z.pow_add_r by lia. ring. }
  assert (Huv : u <= v).
  { destruct (Z.le_gt_cases u v) as [|Hgt]; [assumption|exfalso].
    assert (2 ^ v <= 2 ^ u) by (apply Z.pow_le_mono_r; lia).
    assert (2 ^ (prec - 1) * 2 ^ (prec - 1) <= Z.pos (ma * mb)).
    { rewrite Pos2Z.inj_mul. apply Z.mul_le_mono_nonneg; lia. }
    assert (2 ^ prec <= 2 ^ (prec - 1) * 2 ^ (prec - 1)).
    { rewrite <- Z.pow_add_r by (unfold prec; lia).
      apply Z.pow_le_mono_r; unfold prec; lia. }
    assert (a * b * 2 ^ v <= a * b * 2 ^ u)
      by (apply Z.mul_le_mono_nonneg_l; lia).
    lia. }
  replace (Z.pos (ma * mb)) with (Z.pos mc * 2 ^ (v - u)).
  - rewrite binary_round_aux_exact by (unfold prec, emax in *; lia).
    f_equal. lia.
  - rewrite Hprod, Hmc. replace v with (u + (v - u)) at 2 by lia.
    rewrite Z.pow_add_r by lia. ring.
Qed.

Lemma integer_value_of_Z a :
  0 < a < 2 ^ prec -> integer_value (of_Z a) = Some a.
Proof.
  intros Ha. destruct (of_Z_normalized a Ha) as (m & e & -> & _ & He & Hm).
  unfold integer_value, isInteger.
  destruct (Z.leb_spec 0 e) as [H0|Hneg].
  - replace e with 0 in * by lia. cbn in Hm. f_equal. lia.
  - pose proof (Z.pow_pos_nonneg 2 (- e) ltac:(lia) ltac:(lia)).
    rewrite Hm, Z.mod_mul, Z.div_mul by lia. cbn [Z.eqb]. f_equal. lia.
Qed.

(** A positive integer of at most [prec] bits is a number above zero. *)
Lemma of_Z_positive a :
  0 < a < 2 ^ prec ->
  isNaN (of_Z a) = false /\ le (of_Z a) (zero false) = false.
Proof.
  intros Ha. destruct (of_Z_normalized a Ha) as (m & e & -> & _).
  split; reflexivity.
Qed.

Lemma le_zero_not_NaN x : le x (zero false) = true -> isNaN x = false.
Proof. destruct x; simpl; intros H; try reflexivity; discriminate. Qed.

(** [x > 0] says that [x] is a number and not [x <= 0]. *)
Lemma gt_zero_iff x :
  gt x (zero false) = true <->
  isNaN x = false /\ le x (zero false) = false.
Proof.
  destruct x as [s|s| |s m e]; try destruct s; cbn; intuition congruence.
Qed.

End ExactIntegers.

(** ** Validation *)

Section Validation.

Lemma amount_too_small v :
  JsNumber.le (Number v) (JsNumber.zero false) = true ->
  shape_amount Part000.FormSchema "amount" v =
  inl [Zod.mkIssue Zod.too_small ["amount"]
         "Please enter an amount greater than $0."].
Proof.
  intros H. simpl. unfold Zod.coerce_number.
  rewrite (le_zero_not_NaN _ H), H. reflexivity.
Qed.

(** An amount that is not above zero is refused. *)
Lemma amount_not_positive_refused v :
  JsNumber.gt (Number v) (JsNumber.zero false) = false ->
  exists issue, shape_amount Part000.FormSchema "amount" v = inl [issue].
Proof.
  intros H. simpl. unfold Zod.coerce_number.
  destruct (JsNumber.isNaN (Number v)) eqn:Hnan; [eexists; reflexivity|].
  destruct (JsNumber.le (Number v) (JsNumber.zero false)) eqn:Hle;
    [eexists; reflexivity|].
  exfalso. apply not_true_iff_false in H. apply H.
  apply gt_zero_iff. split; assumption.
Qed.

(** A status that is not one of the two options is refused. *)
Lemma status_not_enumerated_refused v :
  v <> Some (EntryString "pending") -> v <> Some (EntryString "paid") ->
  exists issue, shape_status Part000.FormSchema "status" v = inl [issue].
Proof.
  intros H1 H2. simpl. unfold Zod.enum.
  destruct v as [[s|f]|]; try (eexists; reflexivity).
  cbn [existsb]. destruct (String.eqb_spec s "pending") as [->|_]; [congruence|].
  destruct (String.eqb_spec s "paid") as [->|_]; [congruence|].
  eexists; reflexivity.
Qed.

(** The object schema fails as soon as one field does. *)
Lemma object3_amount_refused f_c f_a f_s input l :
  f_a (raw_amount input) = inl l ->
  exists error, object3 f_c f_a f_s input = Zod.SafeParseError error.
Proof.
  intros H. unfold object3. rewrite H.
  destruct (f_c _), (f_s _); eexists; reflexivity.
Qed.

Lemma object3_status_refused f_c f_a f_s input l :
  f_s (raw_status input) = inl l ->
  exists error, object3 f_c f_a f_s input = Zod.SafeParseError error.
Proof.
  intros H. unfold object3. rewrite H.
  destruct (f_c _), (f_a _); eexists; reflexivity.
Qed.

(** Three good fields are accepted, and parse to themselves. *)
Lemma fields_accepted formData c s :
  FormData_get "customerId" formData = Some (EntryString c) ->
  JsNumber.isNaN (Number (FormData_get "amount" formData)) = false ->
  JsNumber.le (Number (FormData_get "amount" formData)) (JsNumber.zero false)
    = false ->
  FormData_get "status" formData = Some (EntryString s) ->
  s = "pending" \/ s = "paid" ->
  Part000.CreateInvoice (raw_of formData) =
  Zod.SafeParseSuccess (mkFields c (Number (FormData_get "amount" formData)) s).
Proof.
  intros Hc Hnan Hle Hs Hopt.
  unfold Part000.CreateInvoice, omit_id_date, object3, raw_of.
  cbn [raw_customerId raw_amount raw_status]. rewrite Hc, Hs.
  simpl. unfold Zod.coerce_number. rewrite Hnan, Hle.
  destruct Hopt as [-> | ->]; reflexivity.
Qed.

Lemma issues_path_string_ ite k v i :
  i ∈ Zod.issues_of (Zod.string_ ite k v) -> Zod.path i = [k].
Proof.
  unfold Zod.string_. destruct v as [[s|f]|]; simpl; intros Hi;
    try (apply list_elem_of_singleton in Hi; subst; reflexivity);
    inversion Hi.
Qed.

Lemma issues_path_enum vs ite k v i :
  i ∈ Zod.issues_of (Zod.enum vs ite k v) -> Zod.path i = [k].
Proof.
  unfold Zod.enum. destruct v as [[s|f]|]; simpl; intros Hi;
    try (apply list_elem_of_singleton in Hi; subst; reflexivity).
  destruct (existsb _ _); simpl in Hi.
  - inversion Hi.
  - apply list_elem_of_singleton in Hi; subst; reflexivity.
Qed.

Lemma fieldErrors_fold_lookup error k (acc : gmap string (list string)) :
  fold_left
    (fun acc issue =>
       match Zod.path issue with
       | h :: _ => <[ h := default [] (acc !! h) ++ [Zod.message issue] ]> acc
       | [] => acc
       end) error acc !! k =
  match messages_at k error with
  | [] => acc !! k
  | ms => Some (default [] (acc !! k) ++ ms)
  end.
Proof.
  revert acc. induction error as [|i error IH]; intros acc; [reflexivity|].
  cbn [fold_left]. rewrite IH. unfold messages_at. cbn [List.filter].
  destruct (Zod.path i) as [|h tl]; [reflexivity|].
  destruct (String.eqb_spec h k) as [->|Hne].
  - rewrite lookup_insert_eq. cbn [List.map]. simpl default.
    destruct (List.map _ _); [reflexivity|].
    by rewrite <- app_assoc.
  - by rewrite lookup_insert_ne.
Qed.

(** What [fieldErrors] holds at a key: the messages of the issues of that
    key, in their order, or nothing when there is none. *)
Lemma fieldErrors_lookup error k :
  Zod.fieldErrors error !! k =
  match messages_at k error with [] => None | ms => Some ms end.
Proof.
  unfold Zod.fieldErrors. rewrite fieldErrors_fold_lookup.
  rewrite lookup_empty. reflexivity.
Qed.

Lemma messages_at_app k l1 l2 :
  messages_at k (l1 ++ l2) = messages_at k l1 ++ messages_at k l2.
Proof. unfold messages_at. by rewrite List.filter_app, List.map_app. Qed.

Lemma messages_at_other k k' l :
  k' <> k -> (forall i, i ∈ l -> Zod.path i = [k']) -> messages_at k l = [].
Proof.
  intros Hne. induction l as [|i l IH]; intros Hl; [reflexivity|].
  unfold messages_at in *. cbn [List.filter].
  rewrite (Hl i) by left.
  destruct (String.eqb_spec k' k); [contradiction|].
  apply IH. intros j Hj. apply Hl. by right.
Qed.

End Validation.

(** ** The table *)

Section Table.

Lemma keeps_id_and_date_refl target rows :
  Forall2 (keeps_id_and_date target) rows rows.
Proof. induction rows; constructor; [repeat split|assumption]. Qed.

Lemma execute_UPDATE_keeps env c a s target rows :
  Forall2 (keeps_id_and_date target) rows
    (execute env (UPDATE_invoices c a s target) rows).
Proof.
  induction rows as [|r rows IH]; cbn [execute List.map]; constructor.
  - destruct (String.eqb_spec (id r) target); repeat split; try reflexivity.
    intros Hne. contradiction.
  - exact IH.
Qed.

Lemma keeps_id_and_date_columns target rows rows' :
  Forall2 (keeps_id_and_date target) rows rows' ->
  List.map id rows' = List.map id rows /\
  List.map date rows' = List.map date rows.
Proof.
  induction 1 as [|r r' rows rows' (Hi & Hd & _) _ [IHi IHd]];
    [split; reflexivity|].
  cbn [List.map]. rewrite Hi, Hd, IHi, IHd. split; reflexivity.
Qed.

Lemma rows_other_than_idemp target rows :
  rows_other_than target (rows_other_than target rows) =
  rows_other_than target rows.
Proof.
  unfold rows_other_than. induction rows as [|r rows IH]; [reflexivity|].
  cbn [List.filter]. destruct (negb (String.eqb (id r) target)) eqn:E.
  - cbn [List.filter]. rewrite E, IH. reflexivity.
  - exact IH.
Qed.

Lemma elem_of_rows_other_than target rows r :
  r ∈ rows_other_than target rows <-> r ∈ rows /\ id r <> target.
Proof.
  unfold rows_other_than. rewrite !list_elem_of_In, List.filter_In.
  destruct (String.eqb_spec (id r) target); cbn [negb]; intuition congruence.
Qed.

End Table.

(** ** The actions *)

Ltac run_action :=
  unfold parse_or_throw, console_log, revalidatePath;
  unfold mbind, Action_bind, mret, Action_ret, try_catch, throw, redirect,
    today, sql, signIn, emit;
  cbn [fst snd invoices events app].

Ltac flatten_events := repeat rewrite <- app_assoc; cbn [app].

Ltac case_sql_raises env :=
  match goal with
  | |- context [sql_raises env ?q ?rows] =>
      destruct (sql_raises env q rows); cbn [fst snd invoices events]
  end.

Section Actions.

Lemma ten_fifty_in_cents :
  JsNumber.mul (JsNumber.StringToNumber "10.50") (JsNumber.of_Z 100) =
  JsNumber.of_Z 1050.
Proof. vm_compute. reflexivity. Qed.

(** C1. With the fields customerId "C1", amount "10.50" and status
    "pending", and a database that takes the statement, [createInvoice]
    turns the amount into exactly 1050 cents, sends one INSERT with "C1",
    1050, "pending" and the date of the day, which adds that row to the
    table, then revalidates '/dashboard/invoices' and redirects there. *)
Theorem createInvoice_valid_input env w prevState formData :
  FormData_get "customerId" formData = Some (EntryString "C1") ->
  FormData_get "amount" formData = Some (EntryString "10.50") ->
  FormData_get "status" formData = Some (EntryString "pending") ->
  let date := split_head "T" (now_ISOString env) in
  let q := INSERT_INTO_invoices "C1" (JsNumber.of_Z 1050) "pending" date in
  sql_raises env q (invoices w) = None ->
  JsNumber.mul (Number (FormData_get "amount" formData)) (JsNumber.of_Z 100)
    = JsNumber.of_Z 1050 /\
  JsNumber.integer_value (JsNumber.of_Z 1050) = Some 1050 /\
  Part000.createInvoice prevState formData env w =
    (Thrown (NEXT_REDIRECT "/dashboard/invoices"),
     {| invoices :=
          invoices w ++
          [mkRow (new_row_id env (invoices w)) "C1" (JsNumber.of_Z 1050)
             "pending" date];
        events :=
          events w ++
          [EvLog [LogString "I'm in the server! 😀"];
           EvSql q;
           EvRevalidatePath "/dashboard/invoices";
           EvRedirect "/dashboard/invoices"] |}).
Proof.
  intros Hc Ha Hs date q Hsql.
  assert (Hparse :
    Part000.CreateInvoice (raw_of formData) =
    Zod.SafeParseSuccess
      (mkFields "C1" (JsNumber.StringToNumber "10.50") "pending")).
  { unfold Part000.CreateInvoice, omit_id_date, object3, raw_of.
    cbn [raw_customerId raw_amount raw_status]. rewrite Hc, Ha, Hs.
    vm_compute. reflexivity. }
  split; [rewrite Ha; exact ten_fifty_in_cents|].
  split; [vm_compute; reflexivity|].
  unfold Part000.createInvoice. rewrite Hparse.
  cbn [customerId amount_ status_]. rewrite ten_fifty_in_cents.
  run_action. fold date. fold q. rewrite Hsql.
  cbn [invoices events]. flatten_events. reflexivity.
Qed.

Lemma createInvoice_valid_input_witness :
  sql_raises quiet_env
    (INSERT_INTO_invoices "C1" (JsNumber.of_Z 1050) "pending" "2024-03-05")
    [] = None /\
  Part000.createInvoice no_state (invoice_form "C1" "10.50" "pending")
    quiet_env empty_world =
    (Thrown (NEXT_REDIRECT "/dashboard/invoices"),
     {| invoices :=
          [mkRow "3958dc9e-712f-4377-85e9-fec4b6a6442a" "C1"
             (JsNumber.of_Z 1050) "pending" "2024-03-05"];
        events :=
          [EvLog [LogString "I'm in the server! 😀"];
           EvSql (INSERT_INTO_invoices "C1" (JsNumber.of_Z 1050) "pending"
                    "2024-03-05");
           EvRevalidatePath "/dashboard/invoices";
           EvRedirect "/dashboard/invoices"] |}).
Proof.
  split; [reflexivity|].
  apply (createInvoice_valid_input quiet_env empty_world no_state
           (invoice_form "C1" "10.50" "pending")); reflexivity.
Defined.

(** C2. When the amount of the form coerces to a number that is at most
    0, [createInvoice] returns the field errors, which hold at 'amount'
    the message 'Please enter an amount greater than $0.', with the message
    'Missing Fields. Failed to Create Invoice.'; it sends no statement and
    the table is as it was. *)
Theorem createInvoice_amount_not_positive env w prevState formData :
  JsNumber.le (Number (FormData_get "amount" formData)) (JsNumber.zero false)
    = true ->
  exists fieldErrors,
    Part000.createInvoice prevState formData env w =
      (Returned {| errors := Some fieldErrors;
                   message := Some "Missing Fields. Failed to Create Invoice." |},
       {| invoices := invoices w;
          events := events w ++ [EvLog [LogString "I'm in the server! 😀"]] |})
    /\ fieldErrors !! "amount" = Some ["Please enter an amount greater than $0."].
Proof.
  intros Hle.
  pose (rc := shape_customerId Part000.FormSchema "customerId"
                (FormData_get "customerId" formData)).
  pose (rs := shape_status Part000.FormSchema "status"
                (FormData_get "status" formData)).
  pose (issue := Zod.mkIssue Zod.too_small ["amount"]
                   "Please enter an amount greater than $0.").
  assert (Hparse :
    Part000.CreateInvoice (raw_of formData) =
    Zod.SafeParseError (Zod.issues_of rc ++ [issue] ++ Zod.issues_of rs)).
  { unfold Part000.CreateInvoice, omit_id_date, object3, raw_of.
    cbn [raw_customerId raw_amount raw_status].
    rewrite (amount_too_small _ Hle). fold rc rs.
    destruct rc, rs; reflexivity. }
  exists (Zod.fieldErrors (Zod.issues_of rc ++ [issue] ++ Zod.issues_of rs)).
  split.
  - unfold Part000.createInvoice. rewrite Hparse. run_action. reflexivity.
  - rewrite fieldErrors_lookup, !messages_at_app.
    rewrite (messages_at_other "amount" "customerId" (Zod.issues_of rc)) by
      (done || intros i; apply issues_path_string_).
    rewrite (messages_at_other "amount" "status" (Zod.issues_of rs)) by
      (done || intros i; apply issues_path_enum).
    reflexivity.
Qed.

Lemma createInvoice_amount_not_positive_witness :
  JsNumber.le (Number (Some (EntryString "-5"))) (JsNumber.zero false) = true /\
  exists fieldErrors,
    Part000.createInvoice no_state (invoice_form "C1" "-5" "paid")
      quiet_env two_rows =
      (Returned {| errors := Some fieldErrors;
                   message := Some "Missing Fields. Failed to Create Invoice." |},
       {| invoices := invoices two_rows;
          events := [EvLog [LogString "I'm in the server! 😀"]] |})
    /\ fieldErrors !! "amount" = Some ["Please enter an amount greater than $0."].
Proof.
  split; [reflexivity|].
  apply (createInvoice_amount_not_positive quiet_env two_rows no_state
           (invoice_form "C1" "-5" "paid")).
  reflexivity.
Defined.

(** C3. When the form is valid and the INSERT raises, [createInvoice]
    returns exactly [{message: 'Database Error: Failed to Create
    Invoice.'}]: the statement is the last call it makes, so there is no
    revalidation and no redirect, and the table is as it was. *)
Theorem createInvoice_database_error env w prevState formData data error :
  Part000.CreateInvoice (raw_of formData) = Zod.SafeParseSuccess data ->
  let q := INSERT_INTO_invoices (customerId data)
             (JsNumber.mul (amount_ data) (JsNumber.of_Z 100)) (status_ data)
             (split_head "T" (now_ISOString env)) in
  sql_raises env q (invoices w) = Some error ->
  Part000.createInvoice prevState formData env w =
    (Returned {| errors := None;
                 message := Some "Database Error: Failed to Create Invoice." |},
     {| invoices := invoices w;
        events := events w ++
                  [EvLog [LogString "I'm in the server! 😀"]; EvSql q] |}).
Proof.
  intros Hparse q Hsql.
  unfold Part000.createInvoice. rewrite Hparse. run_action.
  fold q. rewrite Hsql. cbn [invoices events]. flatten_events. reflexivity.
Qed.

Lemma createInvoice_database_error_witness :
  Part000.createInvoice no_state (invoice_form "C1" "10.50" "pending")
    broken_db_env two_rows =
    (Returned {| errors := None;
                 message := Some "Database Error: Failed to Create Invoice." |},
     {| invoices := invoices two_rows;
        events :=
          [EvLog [LogString "I'm in the server! 😀"];
           EvSql (INSERT_INTO_invoices "C1" (JsNumber.of_Z 1050) "pending"
                    "2024-03-05")] |}).
Proof.
  apply (createInvoice_database_error broken_db_env two_rows no_state
           (invoice_form "C1" "10.50" "pending")
           (mkFields "C1" (JsNumber.StringToNumber "10.50") "pending")
           (ExternalError "connection refused")); reflexivity.
Defined.

(** C4. When the form fails validation, [updateInvoice] throws the
    [ZodError] that holds the issues, instead of returning a result with
    field errors; it has sent no statement and the table is as it was. *)
Theorem updateInvoice_invalid_input_throws env w target formData error :
  Part000.UpdateInvoice (raw_of formData) = Zod.SafeParseError error ->
  Part000.updateInvoice target formData env w =
    (Thrown (ZodError error),
     {| invoices := invoices w;
        events := events w ++
                  [EvLog [LogString "id :"; LogString target];
                   EvLog [LogString "formData :"; LogFormData formData]] |}).
Proof.
  intros Hparse.
  unfold Part000.updateInvoice. rewrite Hparse. run_action.
  flatten_events. reflexivity.
Qed.

(** The two examples of the claim do fail validation. *)
Lemma amount_not_positive_fails_validation formData :
  JsNumber.gt (Number (FormData_get "amount" formData)) (JsNumber.zero false)
    = false ->
  exists error,
    Part000.UpdateInvoice (raw_of formData) = Zod.SafeParseError error.
Proof.
  intros H. destruct (amount_not_positive_refused _ H) as [issue Hi].
  exact (object3_amount_refused _ _ _ (raw_of formData) _ Hi).
Qed.

Lemma status_not_enumerated_fails_validation formData :
  FormData_get "status" formData <> Some (EntryString "pending") ->
  FormData_get "status" formData <> Some (EntryString "paid") ->
  exists error,
    Part000.UpdateInvoice (raw_of formData) = Zod.SafeParseError error.
Proof.
  intros H1 H2.
  destruct (status_not_enumerated_refused _ H1 H2) as [issue Hi].
  exact (object3_status_refused _ _ _ (raw_of formData) _ Hi).
Qed.

Lemma updateInvoice_invalid_input_throws_witness :
  Part000.updateInvoice "i1" (invoice_form "C1" "0" "void") quiet_env two_rows =
    (Thrown
       (ZodError
          [Zod.mkIssue Zod.too_small ["amount"]
             "Please enter an amount greater than $0.";
           Zod.mkIssue Zod.invalid_enum_value ["status"]
             "Invalid enum value. Expected 'pending' | 'paid', received 'void'"]),
     {| invoices := invoices two_rows;
        events :=
          [EvLog [LogString "id :"; LogString "i1"];
           EvLog [LogString "formData :";
                  LogFormData (invoice_form "C1" "0" "void")]] |}).
Proof.
  apply (updateInvoice_invalid_input_throws quiet_env two_rows "i1"
           (invoice_form "C1" "0" "void")).
  reflexivity.
Defined.

(** C5. Whatever the identifier, [deleteInvoice] of [part_000] throws
    'Failed to Delete Invoice' as its first step and leaves the world as it
    found it: no DELETE is sent, nothing is revalidated, the table is as it
    was, and no message is returned.  What follows the [throw] is never
    run: the result is the same whatever code stands there. *)
Theorem deleteInvoice_always_throws env w target :
  Part000.deleteInvoice target env w =
    (Thrown (Error "Failed to Delete Invoice"), w) /\
  (forall result, fst (Part000.deleteInvoice target env w) <> Returned result) /\
  (forall rest : Action State,
     (throw (A := unit) (Error "Failed to Delete Invoice");; rest) env w =
     Part000.deleteInvoice target env w).
Proof.
  split; [reflexivity|]. split.
  - intros result. cbn. discriminate.
  - intros rest. reflexivity.
Qed.

(** C6. [authenticate] returns 'Invalid credentials.' exactly when
    [signIn] raises an [AuthError] of type 'CredentialsSignin'; it returns
    'Something went wrong.' for an [AuthError] of any other type; it throws
    again every error that is not an [AuthError]; and it returns
    [undefined] when [signIn] raises nothing.  Its one call is
    [signIn('credentials', formData)]. *)
Theorem authenticate_classifies_errors env w prevState formData :
  let r := Part000.authenticate prevState formData env w in
  (fst r = Returned (Some "Invalid credentials.") <->
   signIn_raises env "credentials" formData =
     Some (AuthError "CredentialsSignin")) /\
  (forall type,
     signIn_raises env "credentials" formData = Some (AuthError type) ->
     type <> "CredentialsSignin" ->
     fst r = Returned (Some "Something went wrong.")) /\
  (forall e,
     signIn_raises env "credentials" formData = Some e ->
     (forall type, e <> AuthError type) ->
     fst r = Thrown e) /\
  (signIn_raises env "credentials" formData = None -> fst r = Returned None) /\
  snd r = {| invoices := invoices w;
             events := events w ++ [EvSignIn "credentials" formData] |}.
Proof.
  unfold Part000.authenticate. run_action.
  destruct (signIn_raises env "credentials" formData) as [e|] eqn:Hraise.
  - destruct e as [issues|url|msg|type|tag]; cbn [fst snd].
    4: { destruct (String.eqb_spec type "CredentialsSignin") as [->|Hne];
           cbn [fst snd]; repeat split; try discriminate; try reflexivity.
         - intros type He Hne. injection He as <-. contradiction.
         - intros e He Hne. injection He as <-. destruct (Hne _ eq_refl).
         - intros He. injection He as ->. contradiction.
         - intros e He Hne'. injection He as <-. destruct (Hne' _ eq_refl). }
    all: repeat split; try discriminate; try reflexivity.
    all: try (intros type He; discriminate He).
    all: intros e He Hne; injection He as <-; reflexivity.
  - cbn [fst snd]. repeat split; try discriminate; try reflexivity.
Qed.

Lemma authenticate_classifies_errors_witness :
  fst (Part000.authenticate None [("email", EntryString "user@nextmail.com")]
         (auth_error_env "CredentialsSignin") empty_world) =
    Returned (Some "Invalid credentials.") /\
  fst (Part000.authenticate None [("email", EntryString "user@nextmail.com")]
         (auth_error_env "CallbackRouteError") empty_world) =
    Returned (Some "Something went wrong.").
Proof.
  split.
  - apply (authenticate_classifies_errors (auth_error_env "CredentialsSignin")
             empty_world None [("email", EntryString "user@nextmail.com")]).
    reflexivity.
  - apply (authenticate_classifies_errors (auth_error_env "CallbackRouteError")
             empty_world None [("email", EntryString "user@nextmail.com")])
      with (type := "CallbackRouteError"); [reflexivity|discriminate].
Defined.

(** C7. After any call of [updateInvoice], valid or not, raising or not,
    the table has the same rows in the same order, each with the
    identifier and the date it had; a row whose identifier is not the one
    given is the same row altogether.  This holds of both revisions. *)
Theorem updateInvoice_keeps_id_and_date env w target formData :
  let later := invoices (snd (Part000.updateInvoice target formData env w)) in
  let earlier :=
    invoices (snd (ActionsTs.updateInvoice target formData env w)) in
  (Forall2 (keeps_id_and_date target) (invoices w) later /\
   List.map id later = List.map id (invoices w) /\
   List.map date later = List.map date (invoices w)) /\
  (Forall2 (keeps_id_and_date target) (invoices w) earlier /\
   List.map id earlier = List.map id (invoices w) /\
   List.map date earlier = List.map date (invoices w)).
Proof.
  cbv zeta.
  assert (H : Forall2 (keeps_id_and_date target) (invoices w)
                (invoices (snd (Part000.updateInvoice target formData env w)))).
  { unfold Part000.updateInvoice.
    destruct (Part000.UpdateInvoice (raw_of formData)) as [data|error];
      run_action; [|apply keeps_id_and_date_refl].
    case_sql_raises env.
    - apply keeps_id_and_date_refl.
    - apply execute_UPDATE_keeps. }
  assert (H' : Forall2 (keeps_id_and_date target) (invoices w)
                 (invoices (snd (ActionsTs.updateInvoice target formData env w)))).
  { unfold ActionsTs.updateInvoice.
    destruct (ActionsTs.UpdateInvoice (raw_of formData)) as [data|error];
      run_action; [|apply keeps_id_and_date_refl].
    case_sql_raises env.
    - apply keeps_id_and_date_refl.
    - apply execute_UPDATE_keeps. }
  split; (split; [assumption|]).
  - exact (keeps_id_and_date_columns _ _ _ H).
  - exact (keeps_id_and_date_columns _ _ _ H').
Qed.

(** The update of the first of two rows, as the table shows it. *)
Example updateInvoice_two_rows :
  invoices (snd (Part000.updateInvoice "i1" (invoice_form "C9" "3" "paid")
                   quiet_env two_rows)) =
  [mkRow "i1" "C9" (JsNumber.of_Z 300) "paid" "2024-01-02";
   mkRow "i2" "C2" (JsNumber.of_Z 20000) "paid" "2024-02-03"].
Proof. vm_compute. reflexivity. Qed.

(** Whole dollars. When the amount is a whole number [n] of dollars,
    above 0 and with [100 * n] below [2^53], and the two other fields are
    valid, the amount that [createInvoice] and [updateInvoice] bind in
    their statement is the number [100 * n], an integer count of cents:
    on these amounts the product by 100 is exact. *)
Theorem whole_dollars_in_integer_cents
    env w prevState target formData n c s :
  0 < n -> 100 * n < 2 ^ 53 ->
  FormData_get "customerId" formData = Some (EntryString c) ->
  Number (FormData_get "amount" formData) = JsNumber.of_Z n ->
  FormData_get "status" formData = Some (EntryString s) ->
  s = "pending" \/ s = "paid" ->
  persisted_amounts
    (events (snd (Part000.createInvoice prevState formData env w))) =
    persisted_amounts (events w) ++ [JsNumber.of_Z (100 * n)] /\
  persisted_amounts
    (events (snd (Part000.updateInvoice target formData env w))) =
    persisted_amounts (events w) ++ [JsNumber.of_Z (100 * n)] /\
  JsNumber.integer_value (JsNumber.of_Z (100 * n)) = Some (100 * n).
Proof.
  intros Hn Hbound Hc Ha Hs Hopt.
  change (2 ^ 53) with (2 ^ JsNumber.prec) in Hbound.
  assert (Hsmall : 0 < n < 2 ^ JsNumber.prec) by lia.
  destruct (of_Z_positive n Hsmall) as [Hnan Hle].
  pose proof (fields_accepted formData c s Hc) as Hparse.
  rewrite Ha in Hparse. specialize (Hparse Hnan Hle Hs Hopt).
  assert (Hcents :
    JsNumber.mul (JsNumber.of_Z n) (JsNumber.of_Z 100) =
    JsNumber.of_Z (100 * n)).
  { rewrite mul_of_Z_exact by lia. f_equal. lia. }
  split; [|split].
  - unfold Part000.createInvoice. rewrite Hparse.
    cbn [customerId amount_ status_]. rewrite Hcents. run_action.
    case_sql_raises env; flatten_events; unfold persisted_amounts;
      rewrite List.flat_map_app; reflexivity.
  - unfold Part000.updateInvoice.
    change Part000.UpdateInvoice with Part000.CreateInvoice. rewrite Hparse.
    run_action. cbn [customerId amount_ status_]. rewrite Hcents.
    case_sql_raises env; flatten_events; unfold persisted_amounts;
      rewrite List.flat_map_app; reflexivity.
  - apply integer_value_of_Z. lia.
Qed.

Lemma whole_dollars_in_integer_cents_witness :
  (0 < 12 /\ 100 * 12 < 2 ^ 53) /\
  persisted_amounts
    (events (snd (Part000.createInvoice no_state
                    (invoice_form "C1" "12" "paid") quiet_env empty_world))) =
    [JsNumber.of_Z 1200] /\
  persisted_amounts
    (events (snd (Part000.updateInvoice "i1"
                    (invoice_form "C1" "12" "paid") quiet_env empty_world))) =
    [JsNumber.of_Z 1200] /\
  JsNumber.integer_value (JsNumber.of_Z 1200) = Some 1200.
Proof.
  split; [split; reflexivity|].
  apply (whole_dollars_in_integer_cents quiet_env empty_world no_state "i1"
           (invoice_form "C1" "12" "paid") 12 "C1" "paid");
    try reflexivity.
  right. reflexivity.
Defined.

(** C8. The code on the form with customerId "C1", amount "1.1" and status
    "pending": the validator accepts the amount, and [createInvoice] and
    [updateInvoice] bind in their statement the product [amount * 100] as
    the doubles give it, 110.00000000000001 (the mantissa 7740561859543041
    at exponent -46, one unit above that of 110).  That number is not an
    integer, where the amount in cents is 110: the product is sent as it
    is, with no rounding to the cent; so it is not true that every accepted
    amount is persisted as an integer count of cents. *)
Lemma amount_in_cents_not_integer :
  let formData := invoice_form "C1" "1.1" "pending" in
  let cents := S754_finite false 7740561859543041 (-46) in
  (exists data,
     Part000.CreateInvoice (raw_of formData) = Zod.SafeParseSuccess data /\
     JsNumber.mul (amount_ data) (JsNumber.of_Z 100) = cents) /\
  persisted_amounts
    (events (snd (Part000.createInvoice no_state formData
                    quiet_env empty_world))) = [cents] /\
  persisted_amounts
    (events (snd (Part000.updateInvoice "i1" formData
                    quiet_env two_rows))) = [cents] /\
  JsNumber.isInteger cents = false /\
  JsNumber.integer_value cents = None /\
  ~ (forall formData data,
       Part000.CreateInvoice (raw_of formData) = Zod.SafeParseSuccess data ->
       JsNumber.isInteger (JsNumber.mul (amount_ data) (JsNumber.of_Z 100))
         = true).
Proof.
  cbv zeta. split; [eexists; split; vm_compute; reflexivity|].
  repeat (split; [vm_compute; reflexivity|]).
  intros H.
  specialize (H (invoice_form "C1" "1.1" "pending")
                (mkFields "C1" (JsNumber.StringToNumber "1.1") "pending")
                ltac:(vm_compute; reflexivity)).
  vm_compute in H. discriminate H.
Qed.

(** An amount below the cent is accepted too: "0.001" is persisted as 0.1. *)
Example tenth_of_a_cent :
  persisted_amounts
    (events (snd (Part000.createInvoice no_state
                    (invoice_form "C1" "0.001" "pending")
                    quiet_env empty_world))) =
    [JsNumber.StringToNumber "0.1"] /\
  JsNumber.isInteger (JsNumber.StringToNumber "0.1") = false.
Proof. split; vm_compute; reflexivity. Qed.

(** C9. Where the delete logic runs (the [try] block of [part_000], and
    [deleteInvoice] of [actions.ts]): the rows whose identifier is not the
    one given are, in every case, the rows that were there; and when the
    DELETE does not raise, the table that is left is made of them alone, so
    that a row is in it exactly when it was there with another
    identifier. *)
Theorem deleteInvoice_removes_matching_rows env w target :
  let later := invoices (snd (Part000.deleteInvoice_try target env w)) in
  let earlier := invoices (snd (ActionsTs.deleteInvoice target env w)) in
  (rows_other_than target later = rows_other_than target (invoices w) /\
   rows_other_than target earlier = rows_other_than target (invoices w)) /\
  (sql_raises env (DELETE_FROM_invoices target) (invoices w) = None ->
   later = rows_other_than target (invoices w) /\
   earlier = rows_other_than target (invoices w) /\
   forall r, r ∈ later <-> r ∈ invoices w /\ id r <> target).
Proof.
  cbv zeta. unfold Part000.deleteInvoice_try, ActionsTs.deleteInvoice.
  run_action.
  destruct (sql_raises env (DELETE_FROM_invoices target) (invoices w));
    cbn [fst snd invoices events execute];
    fold (rows_other_than target (invoices w)).
  - split; [split; reflexivity|]. discriminate.
  - rewrite rows_other_than_idemp. split; [split; reflexivity|].
    intros _. split; [reflexivity|]. split; [reflexivity|].
    apply elem_of_rows_other_than.
Qed.

Lemma deleteInvoice_removes_matching_rows_witness :
  sql_raises quiet_env (DELETE_FROM_invoices "i1") (invoices two_rows) = None /\
  invoices (snd (Part000.deleteInvoice_try "i1" quiet_env two_rows)) =
    [mkRow "i2" "C2" (JsNumber.of_Z 20000) "paid" "2024-02-03"] /\
  invoices (snd (ActionsTs.deleteInvoice "i1" quiet_env two_rows)) =
    [mkRow "i2" "C2" (JsNumber.of_Z 20000) "paid" "2024-02-03"].
Proof.
  split; [reflexivity|].
  destruct (proj2 (deleteInvoice_removes_matching_rows quiet_env two_rows "i1")
              eq_refl) as (Hlater & Hearlier & _).
  split; [exact Hlater|exact Hearlier].
Defined.

(** C10. The two revisions of [deleteInvoice] never agree. For every
    identifier, table and environment, what a caller sees differs: the one
    of [part_000] throws 'Failed to Delete Invoice' and makes no call; the
    one of [actions.ts] sends the DELETE first and, when the statement
    does not raise, revalidates the path and returns no message, leaving
    the rows of other identifiers. *)
Theorem deleteInvoice_revisions_differ env w target :
  observe_void (ActionsTs.deleteInvoice target env w) <>
    observe_State (Part000.deleteInvoice target env w) /\
  Part000.deleteInvoice target env w =
    (Thrown (Error "Failed to Delete Invoice"), w) /\
  (exists rest,
     events (snd (ActionsTs.deleteInvoice target env w)) =
     events w ++ EvSql (DELETE_FROM_invoices target) :: rest) /\
  (sql_raises env (DELETE_FROM_invoices target) (invoices w) = None ->
   ActionsTs.deleteInvoice target env w =
     (Returned tt,
      {| invoices := rows_other_than target (invoices w);
         events := events w ++
                   [EvSql (DELETE_FROM_invoices target);
                    EvRevalidatePath "/dashboard/invoices"] |})).
Proof.
  assert (Hev : exists rest,
     events (snd (ActionsTs.deleteInvoice target env w)) =
     events w ++ EvSql (DELETE_FROM_invoices target) :: rest).
  { unfold ActionsTs.deleteInvoice. run_action.
    destruct (sql_raises env (DELETE_FROM_invoices target) (invoices w));
      cbn [fst snd invoices events]; flatten_events; eexists; reflexivity. }
  split; [|split; [reflexivity|split; [exact Hev|]]].
  - destruct Hev as [rest Hev]. intros Heq.
    apply (f_equal (fun r => events (snd r))) in Heq.
    cbn [observe_void observe_State snd] in Heq. rewrite Hev in Heq.
    apply (f_equal (@List.length Event)) in Heq.
    rewrite List.length_app in Heq. cbn [List.length] in Heq.
    change (events (snd (Part000.deleteInvoice target env w)))
      with (events w) in Heq.
    lia.
  - intros Hok. unfold ActionsTs.deleteInvoice. run_action. rewrite Hok.
    cbn [fst snd invoices events]. flatten_events. reflexivity.
Qed.

Lemma deleteInvoice_revisions_differ_witness :
  sql_raises quiet_env (DELETE_FROM_invoices "i1") (invoices two_rows) = None /\
  ActionsTs.deleteInvoice "i1" quiet_env two_rows =
    (Returned tt,
     {| invoices := [mkRow "i2" "C2" (JsNumber.of_Z 20000) "paid" "2024-02-03"];
        events := [EvSql (DELETE_FROM_invoices "i1");
                   EvRevalidatePath "/dashboard/invoices"] |}) /\
  observe_void (ActionsTs.deleteInvoice "i1" quiet_env two_rows) <>
    observe_State (Part000.deleteInvoice "i1" quiet_env two_rows).
Proof.
  split; [reflexivity|].
  destruct (deleteInvoice_revisions_differ quiet_env two_rows "i1")
    as (Hdiff & _ & _ & Hok).
  split; [exact (Hok eq_refl)|exact Hdiff].
Defined.

End Actions.

(** ** More on validation *)

Section FieldErrors.

Lemma issues_path_coerce_number chk k v i :
  i ∈ Zod.issues_of (Zod.coerce_number chk k v) -> Zod.path i = [k].
Proof.
  unfold Zod.coerce_number.
  destruct (JsNumber.isNaN (Number v)); simpl; intros Hi.
  - apply list_elem_of_singleton in Hi; subst; reflexivity.
  - destruct chk as [[b m]|]; [|inversion Hi].
    destruct (JsNumber.le (Number v) b); simpl in Hi; [|inversion Hi].
    apply list_elem_of_singleton in Hi; subst; reflexivity.
Qed.

Lemma messages_at_same k l :
  (forall i, i ∈ l -> Zod.path i = [k]) ->
  messages_at k l = List.map Zod.message l.
Proof.
  induction l as [|i l IH]; intros Hl; [reflexivity|].
  unfold messages_at in *. cbn [List.filter].
  rewrite (Hl i) by left. rewrite String.eqb_refl. cbn [List.map].
  f_equal. apply IH. intros j Hj. apply Hl. by right.
Qed.

(** The issues of a failed parse are those of the three fields, in the
    order of the keys. *)
Lemma object3_error_issues f_c f_a f_s input error :
  object3 f_c f_a f_s input = Zod.SafeParseError error ->
  error = Zod.issues_of (f_c (raw_customerId input)) ++
          Zod.issues_of (f_a (raw_amount input)) ++
          Zod.issues_of (f_s (raw_status input)).
Proof.
  unfold object3.
  destruct (f_c _), (f_a _), (f_s _); intros H; inversion H; reflexivity.
Qed.

(** What [fieldErrors] holds for a failed parse of the three fields. *)
Lemma fieldErrors_of_fields formData error :
  Part000.CreateInvoice (raw_of formData) = Zod.SafeParseError error ->
  let rc := shape_customerId Part000.FormSchema "customerId"
              (FormData_get "customerId" formData) in
  let ra := shape_amount Part000.FormSchema "amount"
              (FormData_get "amount" formData) in
  let rs := shape_status Part000.FormSchema "status"
              (FormData_get "status" formData) in
  Zod.fieldErrors error !! "customerId" = field_messages rc /\
  Zod.fieldErrors error !! "amount" = field_messages ra /\
  Zod.fieldErrors error !! "status" = field_messages rs /\
  (forall k, k <> "customerId" -> k <> "amount" -> k <> "status" ->
             Zod.fieldErrors error !! k = None).
Proof.
  intros Hparse rc ra rs.
  apply object3_error_issues in Hparse.
  cbn [raw_of raw_customerId raw_amount raw_status] in Hparse.
  fold rc ra rs in Hparse. subst error.
  assert (Hc : forall i, i ∈ Zod.issues_of rc -> Zod.path i = ["customerId"])
    by (intros i; apply issues_path_string_).
  assert (Ha : forall i, i ∈ Zod.issues_of ra -> Zod.path i = ["amount"])
    by (intros i; apply issues_path_coerce_number).
  assert (Hs : forall i, i ∈ Zod.issues_of rs -> Zod.path i = ["status"])
    by (intros i; apply issues_path_enum).
  unfold field_messages.
  repeat split; [| | |intros k H1 H2 H3];
    rewrite fieldErrors_lookup, !messages_at_app.
  - rewrite (messages_at_same _ _ Hc),
      (messages_at_other "customerId" "amount" _ ltac:(done) Ha),
      (messages_at_other "customerId" "status" _ ltac:(done) Hs).
    rewrite !app_nil_r. reflexivity.
  - rewrite (messages_at_same _ _ Ha),
      (messages_at_other "amount" "customerId" _ ltac:(done) Hc),
      (messages_at_other "amount" "status" _ ltac:(done) Hs).
    rewrite app_nil_r. reflexivity.
  - rewrite (messages_at_same _ _ Hs),
      (messages_at_other "status" "customerId" _ ltac:(done) Hc),
      (messages_at_other "status" "amount" _ ltac:(done) Ha).
    reflexivity.
  - rewrite (messages_at_other k "customerId" _ ltac:(congruence) Hc),
      (messages_at_other k "amount" _ ltac:(congruence) Ha),
      (messages_at_other k "status" _ ltac:(congruence) Hs).
    reflexivity.
Qed.

Lemma customer_messages v :
  field_messages (shape_customerId Part000.FormSchema "customerId" v) =
  match v with
  | Some (EntryString _) => None
  | _ => Some ["Please select a customer."]
  end.
Proof. destruct v as [[c|f]|]; reflexivity. Qed.

Lemma amount_messages v :
  (field_messages (shape_amount Part000.FormSchema "amount" v) = None <->
   JsNumber.gt (Number v) (JsNumber.zero false) = true) /\
  (forall ms, field_messages (shape_amount Part000.FormSchema "amount" v)
              = Some ms -> exists m, ms = [m]).
Proof.
  rewrite gt_zero_iff. simpl. unfold Zod.coerce_number.
  destruct (JsNumber.isNaN (Number v));
    [|destruct (JsNumber.le (Number v) (JsNumber.zero false))];
    cbn; (split; [split; [discriminate || done|intros [? ?]; done]|]);
    intros ms H; inversion H; eauto.
Qed.

Lemma status_messages v :
  (field_messages (shape_status Part000.FormSchema "status" v) = None <->
   v = Some (EntryString "pending") \/ v = Some (EntryString "paid")) /\
  (forall ms, field_messages (shape_status Part000.FormSchema "status" v)
              = Some ms -> exists m, ms = [m]).
Proof.
  simpl. unfold Zod.enum. destruct v as [[s|f]|]; cbn [existsb].
  - destruct (String.eqb_spec s "pending") as [->|Hp];
      [|destruct (String.eqb_spec s "paid") as [->|Hq]]; cbn.
    + split; [split; auto|discriminate].
    + split; [split; auto|discriminate].
    + split; [split; [discriminate|intros [H|H]; congruence]|].
      intros ms H; inversion H; eauto.
  - cbn. split; [split; [discriminate|intros [H|H]; discriminate]|].
    intros ms H; inversion H; eauto.
  - cbn. split; [split; [discriminate|intros [H|H]; discriminate]|].
    intros ms H; inversion H; eauto.
Qed.

(** What the later schema accepts, read back from the parsed fields. *)
Lemma accepted_fields formData data :
  Part000.CreateInvoice (raw_of formData) = Zod.SafeParseSuccess data ->
  FormData_get "customerId" formData = Some (EntryString (customerId data)) /\
  Number (FormData_get "amount" formData) = amount_ data /\
  JsNumber.isNaN (amount_ data) = false /\
  JsNumber.le (amount_ data) (JsNumber.zero false) = false /\
  FormData_get "status" formData = Some (EntryString (status_ data)) /\
  (status_ data = "pending" \/ status_ data = "paid").
Proof.
  unfold Part000.CreateInvoice, omit_id_date, object3, raw_of.
  cbn [raw_customerId raw_amount raw_status]. simpl.
  unfold Zod.string_, Zod.coerce_number, Zod.enum.
  destruct (FormData_get "customerId" formData) as [[c|f]|];
    destruct (JsNumber.isNaN (Number (FormData_get "amount" formData))) eqn:Hnan;
    destruct (JsNumber.le (Number (FormData_get "amount" formData))
                (JsNumber.zero false)) eqn:Hle;
    destruct (FormData_get "status" formData) as [[s|f']|];
    try discriminate;
    try (destruct (existsb (String.eqb s) ["pending"; "paid"]); discriminate).
  cbn [existsb].
  destruct (String.eqb_spec s "pending") as [->|Hp];
    [|destruct (String.eqb_spec s "paid") as [->|Hq]]; cbn [orb];
    intros H; inversion H; subst; cbn [customerId amount_ status_];
    repeat split; auto.
Qed.

(** The earlier schema asks of the amount only that it is a number. *)
Lemma earlier_fields_accepted formData c s :
  FormData_get "customerId" formData = Some (EntryString c) ->
  JsNumber.isNaN (Number (FormData_get "amount" formData)) = false ->
  FormData_get "status" formData = Some (EntryString s) ->
  s = "pending" \/ s = "paid" ->
  ActionsTs.CreateInvoice (raw_of formData) =
  Zod.SafeParseSuccess (mkFields c (Number (FormData_get "amount" formData)) s).
Proof.
  intros Hc Hnan Hs Hopt.
  unfold ActionsTs.CreateInvoice, omit_id_date, object3, raw_of.
  cbn [raw_customerId raw_amount raw_status]. rewrite Hc, Hs.
  simpl. unfold Zod.coerce_number. rewrite Hnan.
  destruct Hopt as [-> | ->]; reflexivity.
Qed.

(** What the later schema accepts, the earlier one accepts as the same
    fields. *)
Lemma later_accepted_earlier formData data :
  Part000.CreateInvoice (raw_of formData) = Zod.SafeParseSuccess data ->
  ActionsTs.CreateInvoice (raw_of formData) = Zod.SafeParseSuccess data.
Proof.
  intros H. destruct (accepted_fields _ _ H) as (Hc & Ha & Hnan & _ & Hs & Ho).
  rewrite <- Ha in Hnan.
  rewrite (earlier_fields_accepted formData _ _ Hc Hnan Hs Ho), Ha.
  destruct data; reflexivity.
Qed.

(** What [createInvoice] does with a form that fails validation. *)
Lemma createInvoice_on_error env w prevState formData error :
  Part000.CreateInvoice (raw_of formData) = Zod.SafeParseError error ->
  Part000.createInvoice prevState formData env w =
    (Returned {| errors := Some (Zod.fieldErrors error);
                 message := Some "Missing Fields. Failed to Create Invoice." |},
     {| invoices := invoices w;
        events := events w ++ [EvLog [LogString "I'm in the server! 😀"]] |}).
Proof.
  intros Hparse. unfold Part000.createInvoice. rewrite Hparse.
  run_action. reflexivity.
Qed.

(** X1. The schema of [part_000] ([CreateInvoice], and [UpdateInvoice],
    which is the same schema) accepts a form exactly when customerId is a
    string, the amount coerces to a number above 0, and the status is the
    string 'pending' or 'paid'; the parsed fields are then that string,
    that number and that status. *)
Theorem CreateInvoice_accepts_iff formData data :
  Part000.CreateInvoice (raw_of formData) = Zod.SafeParseSuccess data <->
  FormData_get "customerId" formData = Some (EntryString (customerId data)) /\
  Number (FormData_get "amount" formData) = amount_ data /\
  JsNumber.gt (amount_ data) (JsNumber.zero false) = true /\
  FormData_get "status" formData = Some (EntryString (status_ data)) /\
  (status_ data = "pending" \/ status_ data = "paid").
Proof.
  split.
  - intros H. destruct (accepted_fields _ _ H) as (Hc & Ha & Hnan & Hle & Hs & Ho).
    repeat split; try assumption. apply gt_zero_iff. split; assumption.
  - intros (Hc & Ha & Hgt & Hs & Hopt).
    apply gt_zero_iff in Hgt. destruct Hgt as [Hnan Hle]. rewrite <- Ha in *.
    rewrite (fields_accepted formData _ _ Hc Hnan Hle Hs Hopt).
    destruct data; cbn in *; subst; reflexivity.
Qed.

(** X2. When the form has no customerId that is a string (none at all, or
    a file), [createInvoice] returns field errors that hold at
    'customerId' exactly 'Please select a customer.', with the message
    'Missing Fields. Failed to Create Invoice.', and sends no statement. *)
Theorem createInvoice_customer_not_selected env w prevState formData :
  (forall c, FormData_get "customerId" formData <> Some (EntryString c)) ->
  exists fieldErrors,
    Part000.createInvoice prevState formData env w =
      (Returned {| errors := Some fieldErrors;
                   message := Some "Missing Fields. Failed to Create Invoice." |},
       {| invoices := invoices w;
          events := events w ++ [EvLog [LogString "I'm in the server! 😀"]] |})
    /\ fieldErrors !! "customerId" = Some ["Please select a customer."].
Proof.
  intros Hc.
  assert (Hrc : shape_customerId Part000.FormSchema "customerId"
                  (FormData_get "customerId" formData) =
                inl [Zod.mkIssue Zod.invalid_type ["customerId"]
                       "Please select a customer."]).
  { simpl. unfold Zod.string_.
    destruct (FormData_get "customerId" formData) as [[c|f]|];
      [destruct (Hc c eq_refl)|reflexivity|reflexivity]. }
  destruct (Part000.CreateInvoice (raw_of formData)) as [data|error] eqn:Hparse.
  - exfalso. unfold Part000.CreateInvoice, omit_id_date, object3 in Hparse.
    cbn [raw_of raw_customerId] in Hparse. rewrite Hrc in Hparse.
    discriminate Hparse.
  - exists (Zod.fieldErrors error). split.
    + exact (createInvoice_on_error env w prevState formData error Hparse).
    + destruct (fieldErrors_of_fields formData error Hparse) as (-> & _).
      rewrite Hrc. reflexivity.
Qed.

Lemma createInvoice_customer_not_selected_witness :
  exists fieldErrors,
    Part000.createInvoice no_state
      [("amount", EntryString "10"); ("status", EntryString "paid")]
      quiet_env two_rows =
      (Returned {| errors := Some fieldErrors;
                   message := Some "Missing Fields. Failed to Create Invoice." |},
       {| invoices := invoices two_rows;
          events := [EvLog [LogString "I'm in the server! 😀"]] |})
    /\ fieldErrors !! "customerId" = Some ["Please select a customer."].
Proof.
  apply (createInvoice_customer_not_selected quiet_env two_rows no_state
           [("amount", EntryString "10"); ("status", EntryString "paid")]).
  intros c. simpl. discriminate.
Defined.

(** X3. When the form has no status that is a string (no radio button
    chosen), [createInvoice] returns field errors that hold at 'status'
    exactly 'Please select an invoice status.', with the message 'Missing
    Fields. Failed to Create Invoice.', and sends no statement. *)
Theorem createInvoice_status_not_selected env w prevState formData :
  (forall s, FormData_get "status" formData <> Some (EntryString s)) ->
  exists fieldErrors,
    Part000.createInvoice prevState formData env w =
      (Returned {| errors := Some fieldErrors;
                   message := Some "Missing Fields. Failed to Create Invoice." |},
       {| invoices := invoices w;
          events := events w ++ [EvLog [LogString "I'm in the server! 😀"]] |})
    /\ fieldErrors !! "status" = Some ["Please select an invoice status."].
Proof.
  intros Hs.
  assert (Hrs : shape_status Part000.FormSchema "status"
                  (FormData_get "status" formData) =
                inl [Zod.mkIssue Zod.invalid_type ["status"]
                       "Please select an invoice status."]).
  { simpl. unfold Zod.enum.
    destruct (FormData_get "status" formData) as [[s|f]|];
      [destruct (Hs s eq_refl)|reflexivity|reflexivity]. }
  destruct (object3_status_refused
              (shape_customerId Part000.FormSchema "customerId")
              (shape_amount Part000.FormSchema "amount")
              (shape_status Part000.FormSchema "status")
              (raw_of formData) _ Hrs) as [error Hparse].
  fold (omit_id_date Part000.FormSchema) in Hparse.
  exists (Zod.fieldErrors error). split.
  - exact (createInvoice_on_error env w prevState formData error Hparse).
  - destruct (fieldErrors_of_fields formData error Hparse) as (_ & _ & -> & _).
    rewrite Hrs. reflexivity.
Qed.

Lemma createInvoice_status_not_selected_witness :
  exists fieldErrors,
    Part000.createInvoice no_state
      [("customerId", EntryString "C1"); ("amount", EntryString "10")]
      quiet_env two_rows =
      (Returned {| errors := Some fieldErrors;
                   message := Some "Missing Fields. Failed to Create Invoice." |},
       {| invoices := invoices two_rows;
          events := [EvLog [LogString "I'm in the server! 😀"]] |})
    /\ fieldErrors !! "status" = Some ["Please select an invoice status."].
Proof.
  apply (createInvoice_status_not_selected quiet_env two_rows no_state
           [("customerId", EntryString "C1"); ("amount", EntryString "10")]).
  intros s. simpl. discriminate.
Defined.

(** X4. The field errors of a form that fails validation have a key for
    each field that is invalid and no other key: only 'customerId',
    'amount' and 'status' can occur, at least one does, each holds exactly
    one message, and a field has no key exactly when it is valid. *)
Theorem createInvoice_field_errors_shape formData error :
  Part000.CreateInvoice (raw_of formData) = Zod.SafeParseError error ->
  let fieldErrors := Zod.fieldErrors error in
  (forall k, is_Some (fieldErrors !! k) ->
             k = "customerId" \/ k = "amount" \/ k = "status") /\
  (forall k ms, fieldErrors !! k = Some ms -> exists m, ms = [m]) /\
  (exists k, is_Some (fieldErrors !! k)) /\
  (fieldErrors !! "customerId" = None <->
   exists c, FormData_get "customerId" formData = Some (EntryString c)) /\
  (fieldErrors !! "amount" = None <->
   JsNumber.gt (Number (FormData_get "amount" formData)) (JsNumber.zero false)
     = true) /\
  (fieldErrors !! "status" = None <->
   FormData_get "status" formData = Some (EntryString "pending") \/
   FormData_get "status" formData = Some (EntryString "paid")).
Proof.
  intros Hparse fieldErrors. subst fieldErrors.
  destruct (fieldErrors_of_fields formData error Hparse)
    as (Hc & Ha & Hs & Hother).
  pose proof (customer_messages (FormData_get "customerId" formData)) as Mc.
  destruct (amount_messages (FormData_get "amount" formData)) as [Ma Ma1].
  destruct (status_messages (FormData_get "status" formData)) as [Ms Ms1].
  assert (Kc : Zod.fieldErrors error !! "customerId" = None <->
               exists c, FormData_get "customerId" formData
                         = Some (EntryString c)).
  { rewrite Hc, Mc.
    destruct (FormData_get "customerId" formData) as [[c|f]|];
      split; try discriminate; eauto; intros [c' H]; discriminate H. }
  assert (Ka := Ma). rewrite <- Ha in Ka.
  assert (Ks := Ms). rewrite <- Hs in Ks.
  assert (Hkeys : forall k, is_Some (Zod.fieldErrors error !! k) ->
                  k = "customerId" \/ k = "amount" \/ k = "status").
  { intros k [ms Hk].
    destruct (decide (k = "customerId")); [auto|].
    destruct (decide (k = "amount")); [auto|].
    destruct (decide (k = "status")); [auto|].
    rewrite Hother in Hk by assumption. discriminate Hk. }
  repeat split; try (apply Kc || apply Ka || apply Ks); try exact Hkeys.
  - intros k ms Hk.
    destruct (Hkeys k (ex_intro _ ms Hk)) as [ -> | [ -> | -> ] ].
    + rewrite Hc, Mc in Hk.
      destruct (FormData_get "customerId" formData) as [[c|f]|];
        inversion Hk; eauto.
    + rewrite Ha in Hk. eauto.
    + rewrite Hs in Hk. eauto.
  - destruct (Zod.fieldErrors error !! "customerId") eqn:Ec; [eauto|].
    destruct (Zod.fieldErrors error !! "amount") eqn:Ea; [eauto|].
    destruct (Zod.fieldErrors error !! "status") eqn:Es; [eauto|].
    exfalso.
    destruct (proj1 Kc eq_refl) as [c Hgc].
    pose proof (proj1 Ka eq_refl) as Hgt.
    apply gt_zero_iff in Hgt. destruct Hgt as [Hnan Hle].
    assert (Hok : exists s, FormData_get "status" formData
                            = Some (EntryString s) /\
                            (s = "pending" \/ s = "paid")).
    { destruct (proj1 Ks eq_refl) as [H|H]; eauto. }
    destruct Hok as (s & Hgs & Hopt).
    rewrite (fields_accepted formData c s Hgc Hnan Hle Hgs Hopt) in Hparse.
    discriminate Hparse.
Qed.

Lemma createInvoice_field_errors_shape_witness :
  let error :=
    [Zod.mkIssue Zod.too_small ["amount"]
       "Please enter an amount greater than $0.";
     Zod.mkIssue Zod.invalid_enum_value ["status"]
       "Invalid enum value. Expected 'pending' | 'paid', received 'void'"] in
  Part000.CreateInvoice (raw_of (invoice_form "C1" "0" "void")) =
    Zod.SafeParseError error /\
  (forall k, is_Some (Zod.fieldErrors error !! k) ->
             k = "customerId" \/ k = "amount" \/ k = "status") /\
  (forall k ms, Zod.fieldErrors error !! k = Some ms -> exists m, ms = [m]).
Proof.
  cbv zeta. split; [reflexivity|].
  pose proof (createInvoice_field_errors_shape (invoice_form "C1" "0" "void")
                _ eq_refl) as H.
  cbv zeta in H. split; [exact (proj1 H)|exact (proj1 (proj2 H))].
Defined.

End FieldErrors.

(** ** More on the actions of [part_000] *)

Section LaterActions.

(** X5. For every form the schema accepts, when the INSERT does not raise,
    [createInvoice] adds to the end of the table one row that holds the
    identifier the table gives, the customer, the amount times 100, the
    status and the day; it leaves the rows that were there, then
    revalidates '/dashboard/invoices' and redirects there. *)
Theorem createInvoice_inserts_row env w prevState formData data :
  Part000.CreateInvoice (raw_of formData) = Zod.SafeParseSuccess data ->
  let date := split_head "T" (now_ISOString env) in
  let cents := JsNumber.mul (amount_ data) (JsNumber.of_Z 100) in
  let q := INSERT_INTO_invoices (customerId data) cents (status_ data) date in
  sql_raises env q (invoices w) = None ->
  Part000.createInvoice prevState formData env w =
    (Thrown (NEXT_REDIRECT "/dashboard/invoices"),
     {| invoices :=
          invoices w ++
          [mkRow (new_row_id env (invoices w)) (customerId data) cents
             (status_ data) date];
        events :=
          events w ++
          [EvLog [LogString "I'm in the server! 😀"];
           EvSql q;
           EvRevalidatePath "/dashboard/invoices";
           EvRedirect "/dashboard/invoices"] |}).
Proof.
  intros Hparse date cents q Hsql.
  unfold Part000.createInvoice. rewrite Hparse. run_action.
  fold date cents q. rewrite Hsql.
  cbn [invoices events]. flatten_events. reflexivity.
Qed.

Lemma createInvoice_inserts_row_witness :
  Part000.createInvoice no_state (invoice_form "C7" "3" "paid")
    quiet_env two_rows =
    (Thrown (NEXT_REDIRECT "/dashboard/invoices"),
     {| invoices :=
          invoices two_rows ++
          [mkRow "3958dc9e-712f-4377-85e9-fec4b6a6442a" "C7"
             (JsNumber.of_Z 300) "paid" "2024-03-05"];
        events :=
          [EvLog [LogString "I'm in the server! 😀"];
           EvSql (INSERT_INTO_invoices "C7" (JsNumber.of_Z 300) "paid"
                    "2024-03-05");
           EvRevalidatePath "/dashboard/invoices";
           EvRedirect "/dashboard/invoices"] |}).
Proof.
  apply (createInvoice_inserts_row quiet_env two_rows no_state
           (invoice_form "C7" "3" "paid")
           (mkFields "C7" (JsNumber.StringToNumber "3") "paid"));
    reflexivity.
Defined.

(** X6. [createInvoice] ends in one of three ways and no other: it returns
    field errors after the log line alone; or it returns the database
    message after one statement, with the table as it was and nothing
    revalidated; or it throws the redirect to '/dashboard/invoices' after
    one statement and the revalidation, with one row more in the table.
    It never throws anything else. *)
Theorem createInvoice_outcomes env w prevState formData :
  let r := Part000.createInvoice prevState formData env w in
  let log := EvLog [LogString "I'm in the server! 😀"] in
  (exists fieldErrors,
     r = (Returned {| errors := Some fieldErrors;
                      message :=
                        Some "Missing Fields. Failed to Create Invoice." |},
          {| invoices := invoices w; events := events w ++ [log] |})) \/
  (exists q,
     r = (Returned {| errors := None;
                      message :=
                        Some "Database Error: Failed to Create Invoice." |},
          {| invoices := invoices w; events := events w ++ [log; EvSql q] |})) \/
  (exists q row,
     r = (Thrown (NEXT_REDIRECT "/dashboard/invoices"),
          {| invoices := invoices w ++ [row];
             events := events w ++
                       [log; EvSql q;
                        EvRevalidatePath "/dashboard/invoices";
                        EvRedirect "/dashboard/invoices"] |})).
Proof.
  cbv zeta. unfold Part000.createInvoice.
  destruct (Part000.CreateInvoice (raw_of formData)) as [data|error];
    run_action.
  - case_sql_raises env; flatten_events.
    + right; left. eexists. reflexivity.
    + right; right. do 2 eexists. reflexivity.
  - left. eexists. reflexivity.
Qed.

(** X7. For every form the schema accepts, when the UPDATE does not raise,
    [updateInvoice] rewrites customer, amount (times 100) and status of
    the rows whose identifier is the one given, keeps their identifier and
    date and every other row, then revalidates and redirects; every row of
    that identifier then holds the customer, the amount and the status of
    the form. *)
Theorem updateInvoice_updates_row env w target formData data :
  Part000.UpdateInvoice (raw_of formData) = Zod.SafeParseSuccess data ->
  let cents := JsNumber.mul (amount_ data) (JsNumber.of_Z 100) in
  let q := UPDATE_invoices (customerId data) cents (status_ data) target in
  sql_raises env q (invoices w) = None ->
  let after :=
    List.map
      (fun r => if String.eqb (id r) target
                then mkRow (id r) (customerId data) cents (status_ data) (date r)
                else r)
      (invoices w) in
  Part000.updateInvoice target formData env w =
    (Thrown (NEXT_REDIRECT "/dashboard/invoices"),
     {| invoices := after;
        events :=
          events w ++
          [EvLog [LogString "id :"; LogString target];
           EvLog [LogString "formData :"; LogFormData formData];
           EvSql q;
           EvRevalidatePath "/dashboard/invoices";
           EvRedirect "/dashboard/invoices"] |}) /\
  (forall r, r ∈ after -> id r = target ->
     customer_id r = customerId data /\ amount r = cents /\
     status r = status_ data).
Proof.
  intros Hparse cents q Hsql after. split.
  - unfold Part000.updateInvoice. rewrite Hparse. run_action.
    fold cents q. rewrite Hsql.
    cbn [invoices events]. flatten_events. reflexivity.
  - intros r Hr Hid. subst after.
    apply list_elem_of_In, List.in_map_iff in Hr.
    destruct Hr as (r0 & Hr0 & _).
    destruct (String.eqb_spec (id r0) target) as [E|E].
    + subst r. cbn. auto.
    + subst r. contradiction.
Qed.

Lemma updateInvoice_updates_row_witness :
  Part000.updateInvoice "i1" (invoice_form "C9" "3" "paid")
    quiet_env two_rows =
    (Thrown (NEXT_REDIRECT "/dashboard/invoices"),
     {| invoices :=
          [mkRow "i1" "C9" (JsNumber.of_Z 300) "paid" "2024-01-02";
           mkRow "i2" "C2" (JsNumber.of_Z 20000) "paid" "2024-02-03"];
        events :=
          [EvLog [LogString "id :"; LogString "i1"];
           EvLog [LogString "formData :";
                  LogFormData (invoice_form "C9" "3" "paid")];
           EvSql (UPDATE_invoices "C9" (JsNumber.of_Z 300) "paid" "i1");
           EvRevalidatePath "/dashboard/invoices";
           EvRedirect "/dashboard/invoices"] |}).
Proof.
  exact (proj1 (updateInvoice_updates_row quiet_env two_rows "i1"
                  (invoice_form "C9" "3" "paid")
                  (mkFields "C9" (JsNumber.StringToNumber "3") "paid")
                  eq_refl eq_refl)).
Defined.

(** X8. When the form is valid and the UPDATE raises, [updateInvoice]
    returns exactly [{message: 'Database Error: Failed to Update
    Invoice.'}]; the statement is its last call, so nothing is revalidated
    and there is no redirect, and the table is as it was. *)
Theorem updateInvoice_database_error env w target formData data error :
  Part000.UpdateInvoice (raw_of formData) = Zod.SafeParseSuccess data ->
  let q := UPDATE_invoices (customerId data)
             (JsNumber.mul (amount_ data) (JsNumber.of_Z 100)) (status_ data)
             target in
  sql_raises env q (invoices w) = Some error ->
  Part000.updateInvoice target formData env w =
    (Returned {| errors := None;
                 message := Some "Database Error: Failed to Update Invoice." |},
     {| invoices := invoices w;
        events :=
          events w ++
          [EvLog [LogString "id :"; LogString target];
           EvLog [LogString "formData :"; LogFormData formData];
           EvSql q] |}).
Proof.
  intros Hparse q Hsql.
  unfold Part000.updateInvoice. rewrite Hparse. run_action.
  fold q. rewrite Hsql. cbn [invoices events]. flatten_events. reflexivity.
Qed.

Lemma updateInvoice_database_error_witness :
  Part000.updateInvoice "i1" (invoice_form "C9" "3" "paid")
    broken_db_env two_rows =
    (Returned {| errors := None;
                 message := Some "Database Error: Failed to Update Invoice." |},
     {| invoices := invoices two_rows;
        events :=
          [EvLog [LogString "id :"; LogString "i1"];
           EvLog [LogString "formData :";
                  LogFormData (invoice_form "C9" "3" "paid")];
           EvSql (UPDATE_invoices "C9" (JsNumber.of_Z 300) "paid" "i1")] |}).
Proof.
  apply (updateInvoice_database_error broken_db_env two_rows "i1"
           (invoice_form "C9" "3" "paid")
           (mkFields "C9" (JsNumber.StringToNumber "3") "paid")
           (ExternalError "connection refused")); reflexivity.
Defined.

(** An UPDATE or a DELETE of an identifier that no row has changes
    nothing. *)
Lemma execute_UPDATE_unknown env c a s target rows :
  target ∉ List.map id rows ->
  execute env (UPDATE_invoices c a s target) rows = rows.
Proof.
  induction rows as [|r rows IH]; intros Hn; [reflexivity|].
  cbn [execute List.map] in *.
  apply not_elem_of_cons in Hn. destruct Hn as [Hne Hn].
  destruct (String.eqb_spec (id r) target); [congruence|].
  f_equal. apply IH. exact Hn.
Qed.

Lemma rows_other_than_unknown target rows :
  target ∉ List.map id rows -> rows_other_than target rows = rows.
Proof.
  induction rows as [|r rows IH]; intros Hn; [reflexivity|].
  unfold rows_other_than in *. cbn [List.filter List.map] in *.
  apply not_elem_of_cons in Hn. destruct Hn as [Hne Hn].
  destruct (String.eqb_spec (id r) target); [congruence|].
  cbn [negb]. f_equal. apply IH. exact Hn.
Qed.

Lemma rows_other_than_ids target rows :
  target ∉ List.map id (rows_other_than target rows).
Proof.
  intros Hin. apply list_elem_of_In, List.in_map_iff in Hin.
  destruct Hin as (r & Hid & Hr).
  apply list_elem_of_In, elem_of_rows_other_than in Hr.
  destruct Hr as [_ Hne]. contradiction.
Qed.

Lemma rows_other_than_new_row target rows c a s d :
  target ∉ List.map id rows ->
  rows_other_than target (rows ++ [mkRow target c a s d]) = rows.
Proof.
  intros Hn. unfold rows_other_than. rewrite List.filter_app.
  fold (rows_other_than target rows).
  rewrite rows_other_than_unknown by assumption.
  cbn. rewrite String.eqb_refl. cbn. apply app_nil_r.
Qed.

Lemma execute_UPDATE_idemp env env' c a s target rows :
  execute env' (UPDATE_invoices c a s target)
    (execute env (UPDATE_invoices c a s target) rows) =
  execute env (UPDATE_invoices c a s target) rows.
Proof.
  cbn [execute]. rewrite List.map_map. apply List.map_ext. intros r.
  destruct (String.eqb_spec (id r) target) as [E|E]; cbn [id date].
  - rewrite E, String.eqb_refl. reflexivity.
  - destruct (String.eqb_spec (id r) target); [contradiction|reflexivity].
Qed.

(** The table after [updateInvoice]. *)
Lemma updateInvoice_table env w target formData :
  invoices (snd (Part000.updateInvoice target formData env w)) =
  match Part000.UpdateInvoice (raw_of formData) with
  | Zod.SafeParseError _ => invoices w
  | Zod.SafeParseSuccess data =>
      let q := UPDATE_invoices (customerId data)
                 (JsNumber.mul (amount_ data) (JsNumber.of_Z 100))
                 (status_ data) target in
      match sql_raises env q (invoices w) with
      | Some _ => invoices w
      | None => execute env q (invoices w)
      end
  end.
Proof.
  unfold Part000.updateInvoice.
  destruct (Part000.UpdateInvoice (raw_of formData)) as [data|error];
    run_action; [|reflexivity].
  cbv zeta. case_sql_raises env; reflexivity.
Qed.

(** X9. When no row has the identifier given, a valid [updateInvoice]
    whose UPDATE does not raise changes no row, and still revalidates and
    redirects as after a change: the caller cannot tell that nothing was
    updated. *)
Theorem updateInvoice_unknown_id env w target formData data :
  Part000.UpdateInvoice (raw_of formData) = Zod.SafeParseSuccess data ->
  target ∉ List.map id (invoices w) ->
  let q := UPDATE_invoices (customerId data)
             (JsNumber.mul (amount_ data) (JsNumber.of_Z 100)) (status_ data)
             target in
  sql_raises env q (invoices w) = None ->
  Part000.updateInvoice target formData env w =
    (Thrown (NEXT_REDIRECT "/dashboard/invoices"),
     {| invoices := invoices w;
        events :=
          events w ++
          [EvLog [LogString "id :"; LogString target];
           EvLog [LogString "formData :"; LogFormData formData];
           EvSql q;
           EvRevalidatePath "/dashboard/invoices";
           EvRedirect "/dashboard/invoices"] |}).
Proof.
  intros Hparse Hunknown q Hsql.
  unfold Part000.updateInvoice. rewrite Hparse. run_action.
  fold q. rewrite Hsql. cbn [invoices events]. flatten_events.
  unfold q. rewrite execute_UPDATE_unknown by assumption. reflexivity.
Qed.

Lemma updateInvoice_unknown_id_witness :
  ("i9" ∉ List.map id (invoices two_rows)) /\
  Part000.updateInvoice "i9" (invoice_form "C9" "3" "paid")
    quiet_env two_rows =
    (Thrown (NEXT_REDIRECT "/dashboard/invoices"),
     {| invoices := invoices two_rows;
        events :=
          [EvLog [LogString "id :"; LogString "i9"];
           EvLog [LogString "formData :";
                  LogFormData (invoice_form "C9" "3" "paid")];
           EvSql (UPDATE_invoices "C9" (JsNumber.of_Z 300) "paid" "i9");
           EvRevalidatePath "/dashboard/invoices";
           EvRedirect "/dashboard/invoices"] |}).
Proof.
  assert (H : "i9" ∉ List.map id (invoices two_rows)).
  { apply (bool_decide_unpack _). vm_compute. exact I. }
  split; [exact H|].
  exact (updateInvoice_unknown_id quiet_env two_rows "i9"
           (invoice_form "C9" "3" "paid")
           (mkFields "C9" (JsNumber.StringToNumber "3") "paid")
           eq_refl H eq_refl).
Defined.

(** X10. [updateInvoice] ends in one of three ways and no other: it throws
    the [ZodError] after its two log lines; or it returns the database
    message after one statement, with the table as it was and nothing
    revalidated; or it throws the redirect after one statement and the
    revalidation, with as many rows in the table as before. *)
Theorem updateInvoice_outcomes env w target formData :
  let r := Part000.updateInvoice target formData env w in
  let logs := [EvLog [LogString "id :"; LogString target];
               EvLog [LogString "formData :"; LogFormData formData]] in
  (exists error,
     r = (Thrown (ZodError error),
          {| invoices := invoices w; events := events w ++ logs |})) \/
  (exists q,
     r = (Returned {| errors := None;
                      message :=
                        Some "Database Error: Failed to Update Invoice." |},
          {| invoices := invoices w;
             events := events w ++ logs ++ [EvSql q] |})) \/
  (exists q after,
     r = (Thrown (NEXT_REDIRECT "/dashboard/invoices"),
          {| invoices := after;
             events := events w ++ logs ++
                       [EvSql q;
                        EvRevalidatePath "/dashboard/invoices";
                        EvRedirect "/dashboard/invoices"] |}) /\
     List.length after = List.length (invoices w)).
Proof.
  cbv zeta. unfold Part000.updateInvoice.
  destruct (Part000.UpdateInvoice (raw_of formData)) as [data|error];
    run_action.
  - case_sql_raises env; flatten_events.
    + right; left. eexists. reflexivity.
    + right; right. do 2 eexists. split; [reflexivity|].
      cbn [execute]. apply List.length_map.
  - left. eexists. flatten_events. reflexivity.
Qed.

(** X11. When the UPDATE of a first [updateInvoice] did not raise (or the
    form failed validation, so that no statement was sent), a second
    [updateInvoice] with the same identifier and the same form leaves the
    table as the first call left it, whatever the database does the second
    time: the second call runs in an environment of its own, which may
    raise or not.  (After a first UPDATE that raised, a second one that
    succeeds does change the table.) *)
Theorem updateInvoice_twice env env' w target formData :
  (forall data,
     Part000.UpdateInvoice (raw_of formData) = Zod.SafeParseSuccess data ->
     sql_raises env
       (UPDATE_invoices (customerId data)
          (JsNumber.mul (amount_ data) (JsNumber.of_Z 100)) (status_ data)
          target)
       (invoices w) = None) ->
  let once := snd (Part000.updateInvoice target formData env w) in
  let twice := snd (Part000.updateInvoice target formData env' once) in
  invoices twice = invoices once.
Proof.
  intros Hfirst. cbv zeta.
  pose proof (updateInvoice_table env w target formData) as Honce.
  rewrite (updateInvoice_table env' (snd _)).
  destruct (Part000.UpdateInvoice (raw_of formData)) as [data|error];
    [|reflexivity].
  cbv zeta in *. rewrite (Hfirst data eq_refl) in Honce. rewrite Honce.
  match goal with
  | |- context [sql_raises env' ?q ?rows] => destruct (sql_raises env' q rows)
  end; [reflexivity|apply execute_UPDATE_idemp].
Qed.

Lemma updateInvoice_twice_witness :
  invoices
    (snd (Part000.updateInvoice "i1" (invoice_form "C9" "3" "paid")
            broken_db_env
            (snd (Part000.updateInvoice "i1" (invoice_form "C9" "3" "paid")
                    quiet_env two_rows)))) =
  [mkRow "i1" "C9" (JsNumber.of_Z 300) "paid" "2024-01-02";
   mkRow "i2" "C2" (JsNumber.of_Z 20000) "paid" "2024-02-03"] /\
  invoices
    (snd (Part000.updateInvoice "i1" (invoice_form "C9" "3" "paid")
            quiet_env
            (snd (Part000.updateInvoice "i1" (invoice_form "C9" "3" "paid")
                    quiet_env two_rows)))) =
  invoices
    (snd (Part000.updateInvoice "i1" (invoice_form "C9" "3" "paid")
            quiet_env two_rows)).
Proof.
  split.
  - apply (updateInvoice_twice quiet_env broken_db_env two_rows "i1"
             (invoice_form "C9" "3" "paid")).
    intros data Hparse. reflexivity.
  - apply (updateInvoice_twice quiet_env quiet_env two_rows "i1"
             (invoice_form "C9" "3" "paid")).
    intros data Hparse. reflexivity.
Defined.

(** The case the hypothesis leaves out: a first UPDATE that raises and a
    second that does not. The second call changes the table. *)
Example updateInvoice_after_a_failure :
  let once := snd (Part000.updateInvoice "i1" (invoice_form "C9" "3" "paid")
                     broken_db_env two_rows) in
  let twice := snd (Part000.updateInvoice "i1" (invoice_form "C9" "3" "paid")
                      quiet_env once) in
  invoices once = invoices two_rows /\ invoices twice <> invoices once.
Proof. cbv zeta. split; [reflexivity|]. vm_compute. discriminate. Qed.

(** X12. The [try] block of [deleteInvoice] (lines 154 to 160), were it
    run: when the DELETE does not raise it removes the rows of that
    identifier, revalidates '/dashboard/invoices' and returns 'Deleted
    Invoice.', without a redirect; when the DELETE raises it returns
    'Database Error: Failed to Delete Invoice.' with the table as it was
    and nothing revalidated; it never throws. *)
Theorem deleteInvoice_try_results env w target :
  let r := Part000.deleteInvoice_try target env w in
  let q := DELETE_FROM_invoices target in
  (sql_raises env q (invoices w) = None ->
   r = (Returned {| errors := None; message := Some "Deleted Invoice." |},
        {| invoices := rows_other_than target (invoices w);
           events := events w ++
                     [EvSql q; EvRevalidatePath "/dashboard/invoices"] |})) /\
  (forall error, sql_raises env q (invoices w) = Some error ->
   r = (Returned {| errors := None;
                    message :=
                      Some "Database Error: Failed to Delete Invoice." |},
        {| invoices := invoices w; events := events w ++ [EvSql q] |})) /\
  (forall error, fst r <> Thrown error).
Proof.
  cbv zeta. unfold Part000.deleteInvoice_try. run_action.
  destruct (sql_raises env (DELETE_FROM_invoices target) (invoices w));
    cbn [fst snd invoices events]; flatten_events;
    repeat split; try discriminate; try reflexivity; intros; discriminate.
Qed.

Lemma deleteInvoice_try_results_witness :
  Part000.deleteInvoice_try "i1" quiet_env two_rows =
    (Returned {| errors := None; message := Some "Deleted Invoice." |},
     {| invoices := [mkRow "i2" "C2" (JsNumber.of_Z 20000) "paid" "2024-02-03"];
        events := [EvSql (DELETE_FROM_invoices "i1");
                   EvRevalidatePath "/dashboard/invoices"] |}) /\
  Part000.deleteInvoice_try "i1" broken_db_env two_rows =
    (Returned {| errors := None;
                 message := Some "Database Error: Failed to Delete Invoice." |},
     {| invoices := invoices two_rows;
        events := [EvSql (DELETE_FROM_invoices "i1")] |}).
Proof.
  split.
  - exact (proj1 (deleteInvoice_try_results quiet_env two_rows "i1") eq_refl).
  - exact (proj1 (proj2 (deleteInvoice_try_results broken_db_env two_rows "i1"))
             (ExternalError "connection refused") eq_refl).
Defined.

(** X13. After a DELETE that did not raise, no row has that identifier;
    an [updateInvoice] of that identifier then changes no row, whatever
    the form, and a second delete changes nothing. *)
Theorem deleted_row_stays_deleted env w target formData :
  sql_raises env (DELETE_FROM_invoices target) (invoices w) = None ->
  let deleted := snd (ActionsTs.deleteInvoice target env w) in
  (target ∉ List.map id (invoices deleted)) /\
  invoices (snd (Part000.updateInvoice target formData env deleted)) =
    invoices deleted /\
  invoices (snd (ActionsTs.deleteInvoice target env deleted)) =
    invoices deleted.
Proof.
  intros Hd deleted.
  assert (Hrows : invoices deleted = rows_other_than target (invoices w)).
  { subst deleted. unfold ActionsTs.deleteInvoice. run_action. rewrite Hd.
    reflexivity. }
  assert (Hgone : target ∉ List.map id (invoices deleted))
    by (rewrite Hrows; apply rows_other_than_ids).
  split; [exact Hgone|]. split.
  - rewrite updateInvoice_table.
    destruct (Part000.UpdateInvoice (raw_of formData)) as [data|error];
      [|reflexivity].
    cbv zeta. destruct (sql_raises env _ (invoices deleted)); [reflexivity|].
    apply execute_UPDATE_unknown. exact Hgone.
  - unfold ActionsTs.deleteInvoice. run_action.
    destruct (sql_raises env _ (invoices deleted));
      cbn [fst snd invoices events execute]; [reflexivity|].
    apply rows_other_than_unknown. exact Hgone.
Qed.

Lemma deleted_row_stays_deleted_witness :
  invoices
    (snd (Part000.updateInvoice "i1" (invoice_form "C9" "3" "paid") quiet_env
            (snd (ActionsTs.deleteInvoice "i1" quiet_env two_rows)))) =
  [mkRow "i2" "C2" (JsNumber.of_Z 20000) "paid" "2024-02-03"].
Proof.
  exact (proj1 (proj2 (deleted_row_stays_deleted quiet_env two_rows "i1"
                         (invoice_form "C9" "3" "paid") eq_refl))).
Defined.

(** X14. Creating an invoice and then deleting the row by the identifier
    the table gave it brings the table back to what it was, when that
    identifier is new to the table and neither statement raises. *)
Theorem create_then_delete_restores_table env w prevState formData data :
  Part000.CreateInvoice (raw_of formData) = Zod.SafeParseSuccess data ->
  let new_id := new_row_id env (invoices w) in
  new_id ∉ List.map id (invoices w) ->
  let qi := INSERT_INTO_invoices (customerId data)
              (JsNumber.mul (amount_ data) (JsNumber.of_Z 100)) (status_ data)
              (split_head "T" (now_ISOString env)) in
  sql_raises env qi (invoices w) = None ->
  let created := snd (Part000.createInvoice prevState formData env w) in
  sql_raises env (DELETE_FROM_invoices new_id) (invoices created) = None ->
  invoices (snd (ActionsTs.deleteInvoice new_id env created)) = invoices w /\
  invoices (snd (Part000.deleteInvoice_try new_id env created)) = invoices w.
Proof.
  intros Hparse new_id Hfresh qi Hi created.
  assert (Hcreated : invoices created =
            invoices w ++
            [mkRow new_id (customerId data)
               (JsNumber.mul (amount_ data) (JsNumber.of_Z 100)) (status_ data)
               (split_head "T" (now_ISOString env))]).
  { subst created. unfold Part000.createInvoice. rewrite Hparse. run_action.
    fold qi. rewrite Hi. reflexivity. }
  intros Hd.
  unfold ActionsTs.deleteInvoice, Part000.deleteInvoice_try. run_action.
  rewrite Hd. cbn [fst snd invoices events execute].
  fold (rows_other_than new_id (invoices created)).
  rewrite Hcreated, rows_other_than_new_row by assumption.
  split; reflexivity.
Qed.

Lemma create_then_delete_restores_table_witness :
  invoices
    (snd (ActionsTs.deleteInvoice "3958dc9e-712f-4377-85e9-fec4b6a6442a"
            quiet_env
            (snd (Part000.createInvoice no_state
                    (invoice_form "C7" "3" "paid") quiet_env two_rows)))) =
  invoices two_rows.
Proof.
  assert (H : new_row_id quiet_env (invoices two_rows)
              ∉ List.map id (invoices two_rows)).
  { apply (bool_decide_unpack _). vm_compute. exact I. }
  exact (proj1 (create_then_delete_restores_table quiet_env two_rows no_state
                  (invoice_form "C7" "3" "paid")
                  (mkFields "C7" (JsNumber.StringToNumber "3") "paid")
                  eq_refl H eq_refl eq_refl)).
Defined.

Lemma split_head_app sep day rest :
  occurs sep day = false ->
  split_head sep (day +:+ String sep rest) = day.
Proof.
  induction day as [|c day IH]; simpl; intros H.
  - rewrite Ascii.eqb_refl. reflexivity.
  - destruct (Ascii.eqb c sep); [discriminate|]. rewrite IH by assumption.
    reflexivity.
Qed.

(** X15. The date [createInvoice] binds in its INSERT is what the clock's
    ISO string reads before its first 'T': for a clock that reads
    [day T time], with no 'T' in [day], the statement sent for a valid form
    holds [day]. *)
Theorem createInvoice_stamps_the_day env w prevState formData data day time :
  Part000.CreateInvoice (raw_of formData) = Zod.SafeParseSuccess data ->
  now_ISOString env = day +:+ String "T" time ->
  occurs "T" day = false ->
  exists rest,
    events (snd (Part000.createInvoice prevState formData env w)) =
    events w ++
    EvLog [LogString "I'm in the server! 😀"] ::
    EvSql (INSERT_INTO_invoices (customerId data)
             (JsNumber.mul (amount_ data) (JsNumber.of_Z 100))
             (status_ data) day) :: rest.
Proof.
  intros Hparse Hnow Hday.
  unfold Part000.createInvoice. rewrite Hparse. run_action.
  rewrite Hnow, split_head_app by assumption.
  case_sql_raises env; flatten_events; eexists; reflexivity.
Qed.

Lemma createInvoice_stamps_the_day_witness :
  exists rest,
    events (snd (Part000.createInvoice no_state (invoice_form "C7" "3" "paid")
                   quiet_env empty_world)) =
    EvLog [LogString "I'm in the server! 😀"] ::
    EvSql (INSERT_INTO_invoices "C7" (JsNumber.of_Z 300) "paid" "2024-03-05")
    :: rest.
Proof.
  exact (createInvoice_stamps_the_day quiet_env empty_world no_state
           (invoice_form "C7" "3" "paid")
           (mkFields "C7" (JsNumber.StringToNumber "3") "paid")
           "2024-03-05" "10:11:12.000Z" eq_refl eq_refl eq_refl).
Defined.

(** X16. [createInvoice] reads the form at 'customerId', 'amount' and
    'status' and nowhere else, and does not read the previous state: two
    forms that agree at these three names give the same outcome and the
    same world, so an 'id' or a 'date' sent with the form changes
    nothing. *)
Theorem createInvoice_reads_three_fields
    env w prevState prevState' formData formData' :
  FormData_get "customerId" formData = FormData_get "customerId" formData' ->
  FormData_get "amount" formData = FormData_get "amount" formData' ->
  FormData_get "status" formData = FormData_get "status" formData' ->
  Part000.createInvoice prevState formData env w =
  Part000.createInvoice prevState' formData' env w.
Proof.
  intros Hc Ha Hs. unfold Part000.createInvoice, raw_of.
  rewrite Hc, Ha, Hs. reflexivity.
Qed.

Lemma createInvoice_reads_three_fields_witness :
  Part000.createInvoice no_state
    (("id", EntryString "i1") :: ("date", EntryString "1999-12-31") ::
     invoice_form "C1" "10.50" "pending")
    quiet_env two_rows =
  Part000.createInvoice
    {| errors := None; message := Some "Database Error: Failed to Create Invoice." |}
    (invoice_form "C1" "10.50" "pending") quiet_env two_rows.
Proof.
  apply createInvoice_reads_three_fields; reflexivity.
Defined.

Lemma shr_1_nonneg mrs : 0 <= shr_m mrs -> 0 <= shr_m (shr_1 mrs).
Proof.
  destruct mrs as [m r s]. cbn [shr_m].
  destruct m as [|[p|p|]|p]; cbn; lia.
Qed.

Lemma iter_shr_1_nonneg n mrs :
  0 <= shr_m mrs -> 0 <= shr_m (Nat.iter n shr_1 mrs).
Proof.
  intros H. induction n as [|n IH]; [exact H|].
  cbn [Nat.iter]. apply shr_1_nonneg. exact IH.
Qed.

Lemma shr_nonneg mrs e n : 0 <= shr_m mrs -> 0 <= shr_m (fst (shr mrs e n)).
Proof.
  intros H. destruct n as [|p|p]; cbn [shr fst]; try exact H.
  rewrite iter_pos_nat. apply iter_shr_1_nonneg. exact H.
Qed.

Lemma shr_m_of_loc m l : shr_m (shr_record_of_loc m l) = m.
Proof. destruct l as [|[]]; reflexivity. Qed.

Lemma round_nearest_even_nonneg m l : 0 <= m -> 0 <= round_nearest_even m l.
Proof.
  intros H. destruct l as [|[]]; cbn [round_nearest_even]; try lia.
  destruct (Z.even m); lia.
Qed.

(** Rounding a mantissa that is not negative gives no NaN and no negative
    number. *)
Lemma binary_round_aux_not_negative m e l :
  0 <= m ->
  not_negative (binary_round_aux JsNumber.prec JsNumber.emax false m e l) = true.
Proof.
  intros Hm. unfold binary_round_aux, shr_fexp.
  destruct (shr (shr_record_of_loc m l) e _) as [mrs' e'] eqn:E1.
  assert (H1 : 0 <= shr_m mrs').
  { change mrs' with (fst (mrs', e')). rewrite <- E1.
    apply shr_nonneg. rewrite shr_m_of_loc. exact Hm. }
  destruct (shr (shr_record_of_loc (round_nearest_even _ _) _) e' _)
    as [mrs'' e''] eqn:E2.
  assert (H2 : 0 <= shr_m mrs'').
  { change mrs'' with (fst (mrs'', e'')). rewrite <- E2.
    apply shr_nonneg. rewrite shr_m_of_loc.
    apply round_nearest_even_nonneg. exact H1. }
  destruct (shr_m mrs'') as [|p|p]; try lia; [reflexivity|].
  destruct (_ <=? _); reflexivity.
Qed.

Lemma amount_in_cents_not_negative x :
  JsNumber.gt x (JsNumber.zero false) = true ->
  not_negative (JsNumber.mul x (JsNumber.of_Z 100)) = true.
Proof.
  intros Hgt.
  change (JsNumber.of_Z 100) with (S754_finite false 7036874417766400 (-46)).
  destruct x as [s|s| |s m e]; try destruct s; try discriminate Hgt.
  - reflexivity.
  - unfold JsNumber.mul, SFmul. cbn [xorb].
    apply binary_round_aux_not_negative. lia.
Qed.

(** X17. Whatever the form, every amount that [createInvoice] and
    [updateInvoice] bind in a statement is a number that is neither NaN
    nor negative: an amount that is no number, or not above 0, reaches no
    statement, and the product by 100 keeps the sign. *)
Theorem persisted_amounts_not_negative env w prevState target formData :
  exists sent_by_create sent_by_update,
    persisted_amounts
      (events (snd (Part000.createInvoice prevState formData env w))) =
      persisted_amounts (events w) ++ sent_by_create /\
    persisted_amounts
      (events (snd (Part000.updateInvoice target formData env w))) =
      persisted_amounts (events w) ++ sent_by_update /\
    Forall (fun a => not_negative a = true) (sent_by_create ++ sent_by_update).
Proof.
  unfold Part000.createInvoice, Part000.updateInvoice.
  change Part000.UpdateInvoice with Part000.CreateInvoice.
  destruct (Part000.CreateInvoice (raw_of formData)) as [data|error] eqn:Hparse.
  - destruct (accepted_fields _ _ Hparse) as (_ & _ & Hnan & Hle & _).
    exists [JsNumber.mul (amount_ data) (JsNumber.of_Z 100)],
           [JsNumber.mul (amount_ data) (JsNumber.of_Z 100)].
    run_action.
    split; [|split].
    + case_sql_raises env; flatten_events; unfold persisted_amounts;
        rewrite List.flat_map_app; reflexivity.
    + case_sql_raises env; flatten_events; unfold persisted_amounts;
        rewrite List.flat_map_app; reflexivity.
    + assert (Hok : not_negative
                      (JsNumber.mul (amount_ data) (JsNumber.of_Z 100)) = true).
      { apply amount_in_cents_not_negative. apply gt_zero_iff. auto. }
      repeat constructor; exact Hok.
  - exists [], []. run_action. flatten_events. unfold persisted_amounts.
    rewrite !List.flat_map_app. cbn. rewrite !app_nil_r.
    repeat split. constructor.
Qed.

End LaterActions.

(** ** The actions of [actions.ts], and the two revisions side by side *)

Section EarlierActions.

(** X18. In [actions.ts], [createInvoice] and [updateInvoice] throw the
    [ZodError] of a form that fails validation ([parse], with no
    [safeParse] and no [catch]); they have then sent no statement and the
    table is as it was. *)
Theorem earlier_actions_throw_on_invalid_input env w target formData error :
  ActionsTs.CreateInvoice (raw_of formData) = Zod.SafeParseError error ->
  ActionsTs.createInvoice formData env w =
    (Thrown (ZodError error),
     {| invoices := invoices w;
        events := events w ++ [EvLog [LogString "I'm in the server!"]] |}) /\
  ActionsTs.updateInvoice target formData env w =
    (Thrown (ZodError error),
     {| invoices := invoices w;
        events := events w ++
                  [EvLog [LogString "id :"; LogString target];
                   EvLog [LogString "formData :"; LogFormData formData]] |}).
Proof.
  intros Hparse. split.
  - unfold ActionsTs.createInvoice. rewrite Hparse. run_action. reflexivity.
  - unfold ActionsTs.updateInvoice.
    change ActionsTs.UpdateInvoice with ActionsTs.CreateInvoice.
    rewrite Hparse. run_action. flatten_events. reflexivity.
Qed.

Lemma earlier_actions_throw_on_invalid_input_witness :
  ActionsTs.createInvoice
    [("customerId", EntryString "C1"); ("amount", EntryString "10")]
    quiet_env two_rows =
    (Thrown
       (ZodError
          [Zod.mkIssue Zod.invalid_type ["status"]
             "Expected 'pending' | 'paid', received null"]),
     {| invoices := invoices two_rows;
        events := [EvLog [LogString "I'm in the server!"]] |}).
Proof.
  exact (proj1 (earlier_actions_throw_on_invalid_input quiet_env two_rows "i1"
                  [("customerId", EntryString "C1");
                   ("amount", EntryString "10")]
                  _ eq_refl)).
Defined.

(** X19. The actions of [actions.ts] catch nothing: when the statement of
    [createInvoice], [updateInvoice] or [deleteInvoice] raises, the action
    throws that same error; the statement is its last call, so nothing is
    revalidated and there is no redirect, and the table is as it was. *)
Theorem earlier_actions_do_not_catch env w target formData data error :
  ActionsTs.CreateInvoice (raw_of formData) = Zod.SafeParseSuccess data ->
  let cents := JsNumber.mul (amount_ data) (JsNumber.of_Z 100) in
  let qi := INSERT_INTO_invoices (customerId data) cents (status_ data)
              (split_head "T" (now_ISOString env)) in
  let qu := UPDATE_invoices (customerId data) cents (status_ data) target in
  let qd := DELETE_FROM_invoices target in
  (sql_raises env qi (invoices w) = Some error ->
   ActionsTs.createInvoice formData env w =
     (Thrown error,
      {| invoices := invoices w;
         events := events w ++
                   [EvLog [LogString "I'm in the server!"]; EvSql qi] |})) /\
  (sql_raises env qu (invoices w) = Some error ->
   ActionsTs.updateInvoice target formData env w =
     (Thrown error,
      {| invoices := invoices w;
         events := events w ++
                   [EvLog [LogString "id :"; LogString target];
                    EvLog [LogString "formData :"; LogFormData formData];
                    EvSql qu] |})) /\
  (sql_raises env qd (invoices w) = Some error ->
   ActionsTs.deleteInvoice target env w =
     (Thrown error,
      {| invoices := invoices w; events := events w ++ [EvSql qd] |})).
Proof.
  intros Hparse cents qi qu qd. repeat split; intros Hsql.
  - unfold ActionsTs.createInvoice. rewrite Hparse. run_action.
    fold cents qi. rewrite Hsql. cbn [invoices events]. flatten_events.
    reflexivity.
  - unfold ActionsTs.updateInvoice.
    change ActionsTs.UpdateInvoice with ActionsTs.CreateInvoice.
    rewrite Hparse. run_action.
    fold cents qu. rewrite Hsql. cbn [invoices events]. flatten_events.
    reflexivity.
  - unfold ActionsTs.deleteInvoice. run_action. fold qd. rewrite Hsql.
    reflexivity.
Qed.

Lemma earlier_actions_do_not_catch_witness :
  ActionsTs.createInvoice (invoice_form "C7" "3" "paid")
    broken_db_env two_rows =
    (Thrown (ExternalError "connection refused"),
     {| invoices := invoices two_rows;
        events :=
          [EvLog [LogString "I'm in the server!"];
           EvSql (INSERT_INTO_invoices "C7" (JsNumber.of_Z 300) "paid"
                    "2024-03-05")] |}) /\
  ActionsTs.deleteInvoice "i1" broken_db_env two_rows =
    (Thrown (ExternalError "connection refused"),
     {| invoices := invoices two_rows;
        events := [EvSql (DELETE_FROM_invoices "i1")] |}).
Proof.
  pose proof (earlier_actions_do_not_catch broken_db_env two_rows "i1"
                (invoice_form "C7" "3" "paid")
                (mkFields "C7" (JsNumber.StringToNumber "3") "paid")
                (ExternalError "connection refused") eq_refl) as H.
  cbv zeta in H.
  split; [exact (proj1 H eq_refl)|exact (proj2 (proj2 H) eq_refl)].
Defined.

(** X20. The schema of [actions.ts] has no check on the amount beyond its
    being a number: for a form with a customer, a status of the two, and
    an amount that coerces to a number at most 0, [createInvoice] of
    [actions.ts] binds that amount times 100 in an INSERT, where
    [createInvoice] of [part_000] sends no statement. *)
Theorem earlier_createInvoice_takes_any_number env w prevState formData c s :
  FormData_get "customerId" formData = Some (EntryString c) ->
  FormData_get "status" formData = Some (EntryString s) ->
  s = "pending" \/ s = "paid" ->
  let x := Number (FormData_get "amount" formData) in
  JsNumber.le x (JsNumber.zero false) = true ->
  persisted_amounts (events (snd (ActionsTs.createInvoice formData env w))) =
    persisted_amounts (events w) ++ [JsNumber.mul x (JsNumber.of_Z 100)] /\
  persisted_amounts
    (events (snd (Part000.createInvoice prevState formData env w))) =
    persisted_amounts (events w).
Proof.
  intros Hc Hs Hopt x Hle. split.
  - pose proof (earlier_fields_accepted formData c s Hc
                  (le_zero_not_NaN _ Hle) Hs Hopt) as Hparse.
    unfold ActionsTs.createInvoice. rewrite Hparse. run_action.
    cbn [customerId amount_ status_]. fold x.
    case_sql_raises env; flatten_events; unfold persisted_amounts;
      rewrite List.flat_map_app; reflexivity.
  - destruct (object3_amount_refused
                (shape_customerId Part000.FormSchema "customerId")
                (shape_amount Part000.FormSchema "amount")
                (shape_status Part000.FormSchema "status")
                (raw_of formData) _ (amount_too_small _ Hle)) as [error Hparse].
    fold (omit_id_date Part000.FormSchema) in Hparse.
    rewrite (createInvoice_on_error env w prevState formData error Hparse).
    cbn [snd events]. unfold persisted_amounts.
    rewrite List.flat_map_app. cbn. apply app_nil_r.
Qed.

Lemma earlier_createInvoice_takes_any_number_witness :
  persisted_amounts
    (events (snd (ActionsTs.createInvoice (invoice_form "C1" "-5" "paid")
                    quiet_env empty_world))) =
    [JsNumber.of_Z (-500)] /\
  persisted_amounts
    (events (snd (Part000.createInvoice no_state
                    (invoice_form "C1" "-5" "paid") quiet_env empty_world))) =
    [].
Proof.
  apply (earlier_createInvoice_takes_any_number quiet_env empty_world no_state
           (invoice_form "C1" "-5" "paid") "C1" "paid");
    try reflexivity.
  right. reflexivity.
Defined.

(** X21. On a form that the schema of [part_000] accepts, the two
    revisions do the same to the database: [createInvoice] sends the same
    INSERT after its log line, with the same calls after it and the same
    table, and [updateInvoice] leaves the very same world; when the
    statement does not raise, both revisions end by the same redirect. *)
Theorem revisions_agree_on_valid_input env w prevState target formData data :
  Part000.CreateInvoice (raw_of formData) = Zod.SafeParseSuccess data ->
  let later := Part000.createInvoice prevState formData env w in
  let earlier := ActionsTs.createInvoice formData env w in
  let cents := JsNumber.mul (amount_ data) (JsNumber.of_Z 100) in
  let qi := INSERT_INTO_invoices (customerId data) cents (status_ data)
              (split_head "T" (now_ISOString env)) in
  let qu := UPDATE_invoices (customerId data) cents (status_ data) target in
  (invoices (snd later) = invoices (snd earlier) /\
   exists rest,
     events (snd later) =
       events w ++ EvLog [LogString "I'm in the server! 😀"] :: EvSql qi :: rest /\
     events (snd earlier) =
       events w ++ EvLog [LogString "I'm in the server!"] :: EvSql qi :: rest) /\
  (sql_raises env qi (invoices w) = None ->
   fst later = Thrown (NEXT_REDIRECT "/dashboard/invoices") /\
   fst earlier = Thrown (NEXT_REDIRECT "/dashboard/invoices")) /\
  snd (Part000.updateInvoice target formData env w) =
    snd (ActionsTs.updateInvoice target formData env w) /\
  (sql_raises env qu (invoices w) = None ->
   fst (Part000.updateInvoice target formData env w) =
     Thrown (NEXT_REDIRECT "/dashboard/invoices") /\
   fst (ActionsTs.updateInvoice target formData env w) =
     Thrown (NEXT_REDIRECT "/dashboard/invoices")).
Proof.
  intros Hparse. pose proof (later_accepted_earlier _ _ Hparse) as Hparse'.
  cbv zeta.
  unfold Part000.createInvoice, ActionsTs.createInvoice,
    Part000.updateInvoice, ActionsTs.updateInvoice.
  change Part000.UpdateInvoice with Part000.CreateInvoice.
  change ActionsTs.UpdateInvoice with ActionsTs.CreateInvoice.
  rewrite Hparse, Hparse'. run_action.
  split; [split|split; [|split]].
  - case_sql_raises env; reflexivity.
  - case_sql_raises env; flatten_events; eexists; split; reflexivity.
  - intros Hok; rewrite Hok; split; reflexivity.
  - case_sql_raises env; reflexivity.
  - intros Hok; rewrite Hok; split; reflexivity.
Qed.

Lemma revisions_agree_on_valid_input_witness :
  invoices (snd (Part000.createInvoice no_state
                   (invoice_form "C7" "3" "paid") quiet_env two_rows)) =
  invoices (snd (ActionsTs.createInvoice
                   (invoice_form "C7" "3" "paid") quiet_env two_rows)) /\
  snd (Part000.updateInvoice "i1" (invoice_form "C7" "3" "paid")
         quiet_env two_rows) =
  snd (ActionsTs.updateInvoice "i1" (invoice_form "C7" "3" "paid")
         quiet_env two_rows).
Proof.
  pose proof (revisions_agree_on_valid_input quiet_env two_rows no_state "i1"
                (invoice_form "C7" "3" "paid")
                (mkFields "C7" (JsNumber.StringToNumber "3") "paid")
                eq_refl) as H.
  cbv zeta in H.
  split; [exact (proj1 (proj1 H))|exact (proj1 (proj2 (proj2 H)))].
Defined.

End EarlierActions.
